(** * PaperTrading: the portfolio ledger of [main.py]

    A shallow embedding of the ledger kept by the Streamlit script
    [main.py]: the list of purchase records held in
    [st.session_state.portfolio], the file [portfolio.json] it is loaded
    from and saved to, the aggregation [calculate_totals], and the three
    handlers of [main] that change the ledger (Buy, Sell, Clear Portfolio).

    Conventions of the embedding.
    - Python [int] is [Z].
    - Prices are Python floats.  The ledger, the handlers and the rows of
      [calculate_totals] are modelled with exact rationals ([Q]); what is
      stated of them compares numbers obtained by the same operations in
      the same order, and regroups no sum, so that it does not rest on the
      arithmetic being exact.  What does depend on rounding is stated of
      the module [Binary64], which has the arithmetic of the interpreter.
      Floats that are no numbers (NaN, infinities) have no counterpart here.
    - Python [None] / JSON [null] in the ['Buy Price'] slot is [None].
    - A Python [str] is a [string] of its UTF-8 bytes.
    - A handler returns the new state together with the list of effects it
      performed, in order: writes of [portfolio.json], [st.success] and
      [st.error] notices, and an uncaught [TypeError].  Rendering calls
      ([st.table], [st.markdown], charts) are not part of the model. *)

From Stdlib Require Import ZArith QArith Qabs Ascii String Floats.
From stdpp Require Import base option list strings pretty.

Local Open Scope Z_scope.
Local Open Scope string_scope.

(** ** Display formatting: the f-strings of [main.py] *)

(** The rupee sign U+20B9, as the three bytes of its UTF-8 encoding. *)
Definition rupee : string :=
  String (ascii_of_nat 226) (String (ascii_of_nat 130) (String (ascii_of_nat 185) "")).

(** Nearest integer, ties to the even neighbour. *)
Definition round_half_even (x : Q) : Z :=
  let n := Qnum x in
  let d := Z.pos (Qden x) in
  let fl := n / d in
  match 2 * (n mod d) ?= d with
  | Lt => fl
  | Gt => fl + 1
  | Eq => if Z.even fl then fl else fl + 1
  end.

Definition two_digits (n : Z) : string :=
  (if (n <? 10)%Z then "0" else "") +:+ pretty n.

(** [f"{x:.2f}"]: sign, integer part, a dot and exactly two decimals, the
    value rounded to the nearest hundredth. *)
Definition format_2f (x : Q) : string :=
  let cents := round_half_even (Qabs x * 100) in
  (if (Qnum x <? 0)%Z then "-" else "")
    +:+ pretty (cents / 100) +:+ "." +:+ two_digits (cents mod 100).

(** [f"₹{x:.2f}"] *)
Definition rupees (x : Q) : string := rupee +:+ format_2f x.

(** [str.upper()], on the ASCII letters (ticker symbols are ASCII; other
    bytes are left as they are). *)
Definition upper_ascii (c : ascii) : ascii :=
  let n := nat_of_ascii c in
  if (97 <=? n)%nat && (n <=? 122)%nat then ascii_of_nat (n - 32) else c.

Fixpoint upper (s : string) : string :=
  match s with
  | EmptyString => EmptyString
  | String c rest => String (upper_ascii c) (upper rest)
  end.

(** ** The ledger *)

(** One purchase record: the dict appended by the Buy handler, with keys
    ['Stock'], ['Quantity'], ['Buy Price'] and ['Buy Date']. *)
Record entry := {
  Stock : string;
  Quantity : Z;
  Buy_Price : option Q;
  Buy_Date : string
}.

(** [entry['Quantity'] -= quantity_to_sell] *)
Definition decrement (quantity_to_sell : Z) (e : entry) : entry :=
  {| Stock := Stock e;
     Quantity := Quantity e - quantity_to_sell;
     Buy_Price := Buy_Price e;
     Buy_Date := Buy_Date e |}.

(** ** JSON documents and [portfolio.json] *)

(** What [json.dump] writes and [json.load] reads back, as a document tree
    (the text encoding itself belongs to Python's [json] module). *)
#[local] Unset Elimination Schemes.
Inductive json :=
| JNull
| JInt (n : Z)
| JFloat (x : Q)
| JString (s : string)
| JArray (items : list json)
| JObject (members : list (string * json)).
#[local] Set Elimination Schemes.

(** The dict literal of the Buy handler as a JSON object. *)
Definition entry_dict (e : entry) : json :=
  JObject [ ("Stock", JString (Stock e));
            ("Quantity", JInt (Quantity e));
            ("Buy Price", from_option JFloat JNull (Buy_Price e));
            ("Buy Date", JString (Buy_Date e)) ].

(** [json.dump(portfolio, file, indent=4)] *)
Definition json_dump (portfolio : list entry) : json :=
  JArray (entry_dict <$> portfolio).

(** [d[key]] on a loaded object. *)
Fixpoint member (key : string) (members : list (string * json)) : option json :=
  match members with
  | [] => None
  | (k, v) :: rest => if decide (k = key) then Some v else member key rest
  end.

Definition as_string (j : json) : option string :=
  match j with JString s => Some s | _ => None end.

Definition as_int (j : json) : option Z :=
  match j with JInt n => Some n | _ => None end.

Definition as_price (j : json) : option (option Q) :=
  match j with
  | JFloat x => Some (Some x)
  | JNull => Some None
  | _ => None
  end.

(** A loaded object read as a purchase record: the four keys the script
    indexes.  [None] when the object is not such a record. *)
Definition dict_entry (j : json) : option entry :=
  match j with
  | JObject members =>
      s ← member "Stock" members ≫= as_string;
      q ← member "Quantity" members ≫= as_int;
      p ← member "Buy Price" members ≫= as_price;
      d ← member "Buy Date" members ≫= as_string;
      Some {| Stock := s; Quantity := q; Buy_Price := p; Buy_Date := d |}
  | _ => None
  end.

(** [json.load(file)] read as a ledger; [None] when the document is not a
    list of purchase records. *)
Definition json_load (doc : json) : option (list entry) :=
  match doc with
  | JArray items => mapM dict_entry items
  | _ => None
  end.

(** The state a handler runs in: the session's ledger and the contents of
    [PORTFOLIO_FILE] ([None] while the file does not exist). *)
Record state := {
  portfolio : list entry;
  portfolio_file : option json
}.

(** [load_portfolio()] *)
Definition load_portfolio (file : option json) : option (list entry) :=
  match file with
  | Some doc => json_load doc
  | None => Some []
  end.

(** [save_portfolio(portfolio)]: the file is opened with mode ['w'] and so
    replaced whole. *)
Definition save_portfolio (portfolio : list entry) (file : option json) : option json :=
  Some (json_dump portfolio).

(** ** Aggregation: [calculate_totals] *)

(** One row of [stock_totals]: the dict built at the end of the loop body.
    The three money columns are the formatted strings the source stores. *)
Record stock_total := {
  row_Stock : string;
  row_Quantity : Z;
  row_Total_Invested : string;
  row_Current_Value : string;
  row_Profit_Loss : string
}.

(** [sum(...)] over integers: left to right from [0]. *)
Definition sum_Z (l : list Z) : Z := fold_left Z.add l 0%Z.

(** [sum(...)] over prices: left to right from [0]. *)
Definition sum_Q (l : list Q) : Q := fold_left Qplus l 0%Q.

(** [[entry for entry in portfolio if entry['Stock'] == stock]] *)
Definition stock_entries (portfolio : list entry) (stock : string) : list entry :=
  filter (λ entry, Stock entry = stock) portfolio.

(** [sum(entry['Quantity'] for entry in stock_entries)] *)
Definition total_quantity (entries : list entry) : Z :=
  sum_Z (Quantity <$> entries).

(** [entry['Buy Price'] * entry['Quantity']]; multiplying [None] raises. *)
Definition invested (e : entry) : option Q :=
  bp ← Buy_Price e; Some (bp * inject_Z (Quantity e))%Q.

(** [sum(entry['Buy Price'] * entry['Quantity'] for entry in stock_entries)];
    [None] when a term raises [TypeError]. *)
Definition total_invested_stock (entries : list entry) : option Q :=
  sum_Q <$> mapM invested entries.

(** The numbers one iteration of the loop computes for [stock]:
    [total_quantity], [total_invested_stock], [total_current_value] and
    [profit_loss]. *)
Record figures := {
  fig_quantity : Z;
  fig_invested : Q;
  fig_current_value : Q;
  fig_profit_loss : Q
}.

Section Aggregation.

(** [get_latest_price]: the last close of the symbol, or [None] when the
    fetch returns no data. *)
Variable get_latest_price : string → option Q.

Definition stock_figures (portfolio : list entry) (stock : string) : option figures :=
  let entries := stock_entries portfolio stock in
  let tq := total_quantity entries in
  tis ← total_invested_stock entries;
  Some
    match get_latest_price stock with
    | Some latest_price =>
        let total_current_value := (inject_Z tq * latest_price)%Q in
        {| fig_quantity := tq;
           fig_invested := tis;
           fig_current_value := total_current_value;
           fig_profit_loss := (total_current_value - tis)%Q |}
    | None =>
        {| fig_quantity := tq;
           fig_invested := tis;
           fig_current_value := tis;
           fig_profit_loss := 0%Q |}
    end.

(** The dict appended to [stock_totals]. *)
Definition stock_row (stock : string) (f : figures) : stock_total :=
  {| row_Stock := stock;
     row_Quantity := fig_quantity f;
     row_Total_Invested := rupees (fig_invested f);
     row_Current_Value := rupees (fig_current_value f);
     row_Profit_Loss := rupees (fig_profit_loss f) |}.

(** The [for stock in set(...)] loop, run over the symbols in the order
    the set yields them, from the accumulators
    [(stock_totals, total_invested, total_profit_loss)]. *)
Fixpoint totals_loop (portfolio : list entry) (order : list string)
    (acc : list stock_total * Q * Q) : option (list stock_total * Q * Q) :=
  match order with
  | [] => Some acc
  | stock :: rest =>
      f ← stock_figures portfolio stock;
      let '(stock_totals, total_invested, total_profit_loss) := acc in
      totals_loop portfolio rest
        ((stock_totals ++ [stock_row stock f])%list,
         (total_invested + fig_invested f)%Q,
         (total_profit_loss + fig_profit_loss f)%Q)
  end.

(** [calculate_totals(portfolio)] when the set of symbols is iterated in
    [order]; [None] when the computation raises [TypeError]. *)
Definition calculate_totals_in (order : list string) (portfolio : list entry)
    : option (list stock_total * Q * Q) :=
  totals_loop portfolio order ([], 0%Q, 0%Q).

End Aggregation.

(** [order] is an order in which [set(item['Stock'] for item in portfolio)]
    can be iterated: every symbol of the ledger, once. *)
Definition iterates (portfolio : list entry) (order : list string) : Prop :=
  NoDup order ∧ ∀ s, s ∈ order ↔ s ∈ Stock <$> portfolio.

(** One such order. *)
Definition symbols (portfolio : list entry) : list string :=
  remove_dups (Stock <$> portfolio).

Definition calculate_totals (get_latest_price : string → option Q)
    (portfolio : list entry) : option (list stock_total * Q * Q) :=
  calculate_totals_in get_latest_price (symbols portfolio) portfolio.

(** ** The handlers of [main] *)

(** What a handler does besides updating the session's ledger. *)
Inductive effect :=
| file_written (doc : json)   (* [save_portfolio] replaced [portfolio.json] *)
| st_success (text : string)
| st_error (text : string)
| TypeError.                  (* the run ends in an uncaught exception *)

(** The texts of the notices. *)
Definition bought_text (quantity_to_buy : Z) (stock_symbol : string) (latest_price : Q) : string :=
  "Bought " +:+ pretty quantity_to_buy +:+ " shares of " +:+ stock_symbol
    +:+ " at " +:+ rupees latest_price +:+ " each.".

Definition sold_text (quantity_to_sell : Z) (stock_to_sell : string)
    (sell_price profit_loss : Q) : string :=
  "Sold " +:+ pretty quantity_to_sell +:+ " shares of " +:+ stock_to_sell
    +:+ " at " +:+ rupees sell_price +:+ " each. Profit/Loss: " +:+ rupees profit_loss.

(** The two error notices of the Sell handler, under the names the
    specification gives them. *)
Definition InsufficientQuantity : effect :=
  st_error "Not enough quantity in the portfolio to sell.".

Definition PriceUnavailable : effect :=
  st_error "Failed to fetch the latest price for selling.".

Definition cleared : effect := st_success "Portfolio cleared.".

(** *** Buy *)

(** The body of [if st.button("Buy"):].  The record is appended and saved
    before the notice is formatted; formatting [None] with [:.2f] raises. *)
Definition buy (stock_symbol : string) (quantity_to_buy : Z) (latest_price : option Q)
    (today : string) (s : state) : state * list effect :=
  let portfolio' :=
    (portfolio s ++ [ {| Stock := stock_symbol;
                         Quantity := quantity_to_buy;
                         Buy_Price := latest_price;
                         Buy_Date := today |} ])%list in
  ({| portfolio := portfolio';
      portfolio_file := save_portfolio portfolio' (portfolio_file s) |},
   [ file_written (json_dump portfolio');
     match latest_price with
     | Some p => st_success (bought_text quantity_to_buy stock_symbol p)
     | None => TypeError
     end ]).

(** A click on Buy in a run where the text box holds [text]: the button
    exists only under [if stock_symbol:] and [if not stock_data.empty:],
    where [stock_data] is the six-month history and [latest_price] the
    result of the separate call [get_latest_price(stock_symbol)]. *)
Definition buy_click (text : string) (stock_data_empty : bool) (latest_price : option Q)
    (quantity_to_buy : Z) (today : string) (s : state) : state * list effect :=
  let stock_symbol := upper text in
  if decide (stock_symbol = "") then (s, [])
  else if stock_data_empty then (s, [])
  else buy stock_symbol quantity_to_buy latest_price today s.

(** *** Sell *)

(** How the loop [for entry in st.session_state.portfolio:] ends. *)
Inductive sale :=
| sold (portfolio' : list entry) (profit_loss : Q)  (* first branch, then [break] *)
| not_enough                                        (* [else] branch, then [break] *)
| sale_raises                                       (* [sell_price - None] *)
| no_entry.                                         (* the loop ran off the end *)

(** The loop under [# Process sale]. *)
Fixpoint process_sale (sell_price : Q) (stock_to_sell : string) (quantity_to_sell : Z)
    (portfolio : list entry) : sale :=
  match portfolio with
  | [] => no_entry
  | entry :: rest =>
      if decide (Stock entry = stock_to_sell) then
        if (Quantity entry >=? quantity_to_sell)%Z then
          match Buy_Price entry with
          | Some buy_price =>
              sold (decrement quantity_to_sell entry :: rest)
                   ((sell_price - buy_price) * inject_Z quantity_to_sell)%Q
          | None => sale_raises
          end
        else not_enough
      else
        match process_sale sell_price stock_to_sell quantity_to_sell rest with
        | sold rest' profit_loss => sold (entry :: rest') profit_loss
        | r => r
        end
  end.

(** The body of [if st.button("Sell"):], up to the refresh of the display. *)
Definition sell (stock_to_sell : string) (quantity_to_sell : Z) (sell_price : option Q)
    (s : state) : state * list effect :=
  match sell_price with
  | Some sell_price =>
      match process_sale sell_price stock_to_sell quantity_to_sell (portfolio s) with
      | sold portfolio' profit_loss =>
          ({| portfolio := portfolio';
              portfolio_file := save_portfolio portfolio' (portfolio_file s) |},
           [ file_written (json_dump portfolio');
             st_success (sold_text quantity_to_sell stock_to_sell sell_price profit_loss) ])
      | not_enough => (s, [InsufficientQuantity])
      | sale_raises => (s, [TypeError])
      | no_entry => (s, [])
      end
  | None => (s, [PriceUnavailable])
  end.

(** *** Clear Portfolio *)

Definition clear (s : state) : state * list effect :=
  ({| portfolio := [];
      portfolio_file := save_portfolio [] (portfolio_file s) |},
   [ file_written (json_dump []); cleared ]).

(** *** Runs *)

(** One click, with what the widgets and the fetches of that run return. *)
Inductive action :=
| Buy (text : string) (stock_data_empty : bool) (latest_price : option Q)
      (quantity_to_buy : Z) (today : string)
| Sell (stock_to_sell : string) (quantity_to_sell : Z) (sell_price : option Q)
| Clear.

Definition run (a : action) (s : state) : state * list effect :=
  match a with
  | Buy text stock_data_empty latest_price quantity_to_buy today =>
      buy_click text stock_data_empty latest_price quantity_to_buy today s
  | Sell stock_to_sell quantity_to_sell sell_price =>
      sell stock_to_sell quantity_to_sell sell_price s
  | Clear => clear s
  end.

(** Both quantity boxes are [st.number_input(..., min_value=1, value=1,
    step=1)]: the quantity of a click is an integer, at least 1. *)
Definition in_range (a : action) : bool :=
  match a with
  | Buy _ _ _ quantity_to_buy _ => (1 <=? quantity_to_buy)%Z
  | Sell _ quantity_to_sell _ => (1 <=? quantity_to_sell)%Z
  | Clear => true
  end.

(** The state after a sequence of clicks. *)
Definition run_all (actions : list action) (s : state) : state :=
  fold_left (λ s a, (run a s).1) actions s.

(** ** The arithmetic of [calculate_totals] in binary64 *)

(** Prices are Python floats.  The definitions above compute with exact
    rationals, which is what the script computes as long as no operation
    rounds; this module is the numeric part of [calculate_totals] with the
    arithmetic the interpreter performs: IEEE 754 binary64, every operation
    rounded to nearest, sums taken from the left.  (Lots are taken with a
    price; what a missing price does is settled above.) *)
Module Binary64.

Record entry := {
  Stock : string;
  Quantity : Z;
  Buy_Price : float
}.

(** An [int] operand of a float operation is converted to the nearest
    float. *)
Definition float_of_int (n : Z) : float :=
  SF2Prim (binary_normalize prec emax n 0 false).

(** [sum(...)]: from [0], left to right. *)
Definition sum (l : list float) : float := fold_left PrimFloat.add l 0%float.

Definition stock_entries (portfolio : list entry) (stock : string) : list entry :=
  filter (λ entry, Stock entry = stock) portfolio.

Definition total_quantity (entries : list entry) : Z :=
  fold_left Z.add (Quantity <$> entries) 0%Z.

(** [entry['Buy Price'] * entry['Quantity']] *)
Definition invested (e : entry) : float :=
  PrimFloat.mul (Buy_Price e) (float_of_int (Quantity e)).

Definition total_invested_stock (entries : list entry) : float :=
  sum (invested <$> entries).

Record figures := {
  fig_quantity : Z;
  fig_invested : float;
  fig_current_value : float;
  fig_profit_loss : float
}.

Definition stock_figures (get_latest_price : string → option float)
    (portfolio : list entry) (stock : string) : figures :=
  let entries := stock_entries portfolio stock in
  let tq := total_quantity entries in
  let tis := total_invested_stock entries in
  match get_latest_price stock with
  | Some latest_price =>
      let total_current_value := PrimFloat.mul (float_of_int tq) latest_price in
      {| fig_quantity := tq;
         fig_invested := tis;
         fig_current_value := total_current_value;
         fig_profit_loss := PrimFloat.sub total_current_value tis |}
  | None =>
      {| fig_quantity := tq;
         fig_invested := tis;
         fig_current_value := tis;
         fig_profit_loss := 0%float |}
  end.

(** The loop, with the figures of each symbol in place of its row. *)
Fixpoint totals_loop (get_latest_price : string → option float)
    (portfolio : list entry) (order : list string)
    (acc : list (string * figures) * float * float)
    : list (string * figures) * float * float :=
  match order with
  | [] => acc
  | stock :: rest =>
      let f := stock_figures get_latest_price portfolio stock in
      let '(stock_totals, total_invested, total_profit_loss) := acc in
      totals_loop get_latest_price portfolio rest
        ((stock_totals ++ [(stock, f)])%list,
         PrimFloat.add total_invested (fig_invested f),
         PrimFloat.add total_profit_loss (fig_profit_loss f))
  end.

Definition calculate_totals_in (get_latest_price : string → option float)
    (order : list string) (portfolio : list entry)
    : list (string * figures) * float * float :=
  totals_loop get_latest_price portfolio order ([], 0%float, 0%float).

End Binary64.

(** ** The price feed and the widgets around the handlers *)

(** [fetch_stock_data(stock_symbol, ...)].  The call into [yfinance] either
    returns a frame, of which the script reads the column ['Close'] only
    (the list of closes, oldest first, possibly empty), or raises, with the
    text of the exception.  An exception is caught: it is shown by
    [st.error] and an empty frame is returned. *)
Definition fetch_stock_data (stock_symbol : string) (history : list Q + string)
    : list Q * list effect :=
  match history with
  | inl data => (data, [])
  | inr e =>
      ([], [st_error ("Error fetching data for " +:+ stock_symbol +:+ ": " +:+ e)])
  end.

(** [get_latest_price(stock_symbol)]: [data['Close'].iloc[-1]] when the frame
    has rows, [None] otherwise. *)
Definition get_latest_price (stock_symbol : string) (history : list Q + string)
    : option Q * list effect :=
  let '(data, shown) := fetch_stock_data stock_symbol history in
  (match data with
   | [] => None
   | _ :: _ => last data
   end, shown).

(** [Series.unique()]: the distinct values, in order of first appearance. *)
Fixpoint unique (l : list string) : list string :=
  match l with
  | [] => []
  | x :: rest => x :: filter (λ y, y ≠ x) (unique rest)
  end.

(** [stocks_to_sell = portfolio_df['Stock'].unique()]: what the select box
    of the Sell section offers, from the rows of [calculate_totals]. *)
Definition stocks_to_sell (stock_totals : list stock_total) : list string :=
  unique (row_Stock <$> stock_totals).

(** The session's ledger at the top of a run: [load_portfolio()] the first
    time, the ledger of [st.session_state] afterwards. *)
Definition session_portfolio (in_session : option (list entry)) (file : option json)
    : option (list entry) :=
  match in_session with
  | Some ledger => Some ledger
  | None => load_portfolio file
  end.

(** The click is not on Clear Portfolio. *)
Definition keeps_ledger (a : action) : bool :=
  match a with
  | Clear => false
  | _ => true
  end.

(** What a sale may do to a lot: nothing but lower its quantity. *)
Definition shrunk (e e' : entry) : Prop :=
  Stock e' = Stock e ∧ Buy_Price e' = Buy_Price e ∧ Buy_Date e' = Buy_Date e
  ∧ (Quantity e' ≤ Quantity e)%Z.

(** [ledger'] holds every lot of [ledger], in the same place, shrunk at
    most. *)
Definition extends (ledger ledger' : list entry) : Prop :=
  ∀ i e, ledger !! i = Some e → ∃ e', ledger' !! i = Some e' ∧ shrunk e e'.

(** * The vocabulary of the statements *)

(** The lot the loop stops at: the first record of the symbol, with its
    position in the ledger. *)
Definition first_lot (stock_to_sell : string) (ledger : list entry) : option (nat * entry) :=
  list_find (λ entry, Stock entry = stock_to_sell) ledger.

(** The lot the specification's wording selects: the first record of the
    symbol whose quantity covers the whole request. *)
Definition first_sufficient_lot (stock_to_sell : string) (quantity_to_sell : Z)
    (ledger : list entry) : option (nat * entry) :=
  list_find (λ entry, Stock entry = stock_to_sell ∧ (quantity_to_sell ≤ Quantity entry)%Z) ledger.

(** What the loop does with the lot it stops at. *)
Definition settle (sell_price : Q) (quantity_to_sell : Z) (ledger : list entry)
    (i : nat) (e : entry) : sale :=
  if (Quantity e >=? quantity_to_sell)%Z then
    match Buy_Price e with
    | Some buy_price =>
        sold (<[i := decrement quantity_to_sell e]> ledger)
             ((sell_price - buy_price) * inject_Z quantity_to_sell)%Q
    | None => sale_raises
    end
  else not_enough.

(** No lot of the ledger has a negative quantity. *)
Definition non_negative (ledger : list entry) : Prop :=
  Forall (λ e, (0 ≤ Quantity e)%Z) ledger.

(** Every lot of the ledger carries a buy price. *)
Definition priced (ledger : list entry) : Prop :=
  Forall (λ e, is_Some (Buy_Price e)) ledger.

(** Every symbol of the ledger is in upper case. *)
Definition normalized (ledger : list entry) : Prop :=
  Forall (λ e, upper (Stock e) = Stock e) ledger.

(** The invested amount of a priced lot. *)
Definition amount (e : entry) : Q := default 0%Q (invested e).

(** The figures of a symbol in a priced ledger. *)
Definition figures_of (get_latest_price : string → option Q)
    (ledger : list entry) (stock : string) : figures :=
  let tq := total_quantity (stock_entries ledger stock) in
  let tis := sum_Q (amount <$> stock_entries ledger stock) in
  match get_latest_price stock with
  | Some latest_price =>
      {| fig_quantity := tq; fig_invested := tis;
         fig_current_value := (inject_Z tq * latest_price)%Q;
         fig_profit_loss := (inject_Z tq * latest_price - tis)%Q |}
  | None =>
      {| fig_quantity := tq; fig_invested := tis;
         fig_current_value := tis; fig_profit_loss := 0%Q |}
  end.

(** A lot with a known price, for the examples. *)
Definition lot (stock : string) (quantity : Z) (buy_price : Q) : entry :=
  {| Stock := stock; Quantity := quantity; Buy_Price := Some buy_price;
     Buy_Date := "2024-01-01" |}.

(** A session holding [ledger], before anything was saved. *)
Definition session (ledger : list entry) : state :=
  {| portfolio := ledger; portfolio_file := None |}.

(** [H] claims an effect occurs in a list none of whose members it is. *)
Ltac absent_effect H :=
  repeat (apply elem_of_cons in H as [H|H]; [discriminate H|]);
  apply elem_of_nil in H; destruct H.

(** * Properties *)

(** ** Persistence *)

Lemma dict_entry_entry_dict (e : entry) : dict_entry (entry_dict e) = Some e.
Proof. destruct e as [s q [p|] d]; reflexivity. Qed.

Lemma json_load_dump (ledger : list entry) : json_load (json_dump ledger) = Some ledger.
Proof.
  unfold json_load, json_dump.
  apply mapM_fmap_Some, dict_entry_entry_dict.
Qed.

(** C8. Loading what [save_portfolio] wrote gives back the ledger that was
    saved, field for field, whatever the file held before; and the empty
    ledger is written as the empty array, not as [null] and not as a
    missing file. *)
Theorem load_save_roundtrip (ledger : list entry) (file : option json) :
  load_portfolio (save_portfolio ledger file) = Some ledger
  ∧ save_portfolio [] file = Some (JArray [])
  ∧ save_portfolio [] file ≠ Some JNull
  ∧ save_portfolio [] file ≠ None.
Proof.
  repeat split; try discriminate.
  unfold load_portfolio, save_portfolio. apply json_load_dump.
Qed.

(** ** Selling *)

Lemma process_sale_first_lot sell_price stock_to_sell quantity_to_sell ledger :
  process_sale sell_price stock_to_sell quantity_to_sell ledger =
    match first_lot stock_to_sell ledger with
    | Some (i, e) => settle sell_price quantity_to_sell ledger i e
    | None => no_entry
    end.
Proof.
  unfold first_lot.
  induction ledger as [|entry rest IH]; [reflexivity|].
  cbn [process_sale list_find].
  destruct (decide (Stock entry = stock_to_sell)) as [Heq|Hne].
  - unfold settle. cbn. reflexivity.
  - rewrite IH.
    destruct (list_find _ rest) as [[i e]|]; [|reflexivity].
    cbn. unfold settle.
    destruct (Quantity e >=? quantity_to_sell)%Z; [|reflexivity].
    destruct (Buy_Price e); reflexivity.
Qed.

Lemma first_lot_None stock_to_sell (ledger : list entry) :
  first_lot stock_to_sell ledger = None ↔ ∀ e, e ∈ ledger → Stock e ≠ stock_to_sell.
Proof.
  unfold first_lot. rewrite list_find_None, Forall_forall. reflexivity.
Qed.

Lemma first_lot_Some stock_to_sell (ledger : list entry) i e :
  first_lot stock_to_sell ledger = Some (i, e) →
  ledger !! i = Some e ∧ Stock e = stock_to_sell
  ∧ ∀ j e', ledger !! j = Some e' → (j < i)%nat → Stock e' ≠ stock_to_sell.
Proof. unfold first_lot. rewrite list_find_Some. tauto. Qed.

(** The outcome of the Sell handler, by cases on the first lot of the
    symbol. *)
Lemma sell_cases stock_to_sell quantity_to_sell sell_price s :
  sell stock_to_sell quantity_to_sell (Some sell_price) s =
    match first_lot stock_to_sell (portfolio s) with
    | None => (s, [])
    | Some (i, e) =>
        if (Quantity e >=? quantity_to_sell)%Z then
          match Buy_Price e with
          | Some buy_price =>
              let ledger' := <[i := decrement quantity_to_sell e]> (portfolio s) in
              ({| portfolio := ledger'; portfolio_file := Some (json_dump ledger') |},
               [ file_written (json_dump ledger');
                 st_success (sold_text quantity_to_sell stock_to_sell sell_price
                               ((sell_price - buy_price) * inject_Z quantity_to_sell)%Q) ])
          | None => (s, [TypeError])
          end
        else (s, [InsufficientQuantity])
    end.
Proof.
  unfold sell. rewrite process_sale_first_lot.
  destruct (first_lot _ _) as [[i e]|]; [|reflexivity].
  unfold settle.
  destruct (Quantity e >=? quantity_to_sell)%Z; [|reflexivity].
  destruct (Buy_Price e); reflexivity.
Qed.

(** The specification's example: ten shares bought at 100, four sold at
    120. *)
Example sell_four_of_ten :
  sell "X" 4 (Some 120%Q) (session [lot "X" 10 100]) =
    ({| portfolio := [lot "X" 6 100];
        portfolio_file := Some (json_dump [lot "X" 6 100]) |},
     [ file_written (json_dump [lot "X" 6 100]);
       st_success (sold_text 4 "X" 120 80) ]).
Proof. vm_compute. reflexivity. Qed.

(** C1, on the code: two purchases of [X], of 3 shares and of 10, then a
    sale of 4 at a fetched price.  The claim has the sale settled against
    the second lot, the first one that covers it.  The handler stops at the
    first lot of [X]: it shows "Not enough quantity in the portfolio to
    sell." and sells nothing, while the table it draws from
    [calculate_totals] reports 13 shares of [X] held. *)
Lemma sell_ignores_later_sufficient_lot :
  let clicks := [ Buy "x" false (Some 100%Q) 3 "2024-01-01";
                  Buy "x" false (Some 100%Q) 10 "2024-01-01" ] in
  let ledger := [lot "X" 3 100; lot "X" 10 100] in
  portfolio (run_all clicks (session [])) = ledger
  ∧ first_sufficient_lot "X" 4 ledger = Some (1%nat, lot "X" 10 100)
  ∧ sell "X" 4 (Some 120%Q) (session ledger) = (session ledger, [InsufficientQuantity])
  ∧ (λ r : list stock_total * Q * Q, row_Quantity <$> r.1.1)
      <$> calculate_totals (λ _, Some 120%Q) ledger
    = Some [13%Z].
Proof. cbv zeta. repeat split; vm_compute; reflexivity. Qed.

(** X18. As the Sell handler is written, a sale is settled against the
    first lot of the symbol in ledger order, and only against it.  When that
    lot covers the request (and carries a buy price), its quantity alone is
    decremented by the requested amount, the ledger is saved, and the notice
    reports [(sell_price - buy_price) * quantity_to_sell]; every other lot
    is left as it was.  When that lot is short, nothing is sold, whatever
    later lots hold. *)
Theorem sell_settles_first_lot_of_symbol
    (s : state) (stock_to_sell : string) (quantity_to_sell : Z) (sell_price : Q)
    (i : nat) (e : entry) :
  first_lot stock_to_sell (portfolio s) = Some (i, e) →
  let r := sell stock_to_sell quantity_to_sell (Some sell_price) s in
  (∀ buy_price,
     (quantity_to_sell ≤ Quantity e)%Z → Buy_Price e = Some buy_price →
     portfolio r.1 = <[i := decrement quantity_to_sell e]> (portfolio s)
     ∧ portfolio r.1 !! i = Some (decrement quantity_to_sell e)
     ∧ (∀ j, j ≠ i → portfolio r.1 !! j = portfolio s !! j)
     ∧ portfolio_file r.1 = Some (json_dump (portfolio r.1))
     ∧ r.2 = [ file_written (json_dump (portfolio r.1));
               st_success (sold_text quantity_to_sell stock_to_sell sell_price
                             ((sell_price - buy_price) * inject_Z quantity_to_sell)%Q) ])
  ∧ ((Quantity e < quantity_to_sell)%Z → r = (s, [InsufficientQuantity])).
Proof.
  intros Hfirst r. subst r. rewrite sell_cases, Hfirst.
  apply first_lot_Some in Hfirst as (Hi & _ & _).
  split.
  - intros buy_price Hq Hbp.
    assert ((Quantity e >=? quantity_to_sell)%Z = true) as -> by lia.
    rewrite Hbp. cbn.
    repeat split.
    + apply list_lookup_insert_eq. eapply lookup_lt_Some, Hi.
    + intros j Hj. apply list_lookup_insert_ne. congruence.
  - intros Hq.
    assert ((Quantity e >=? quantity_to_sell)%Z = false) as -> by lia.
    reflexivity.
Qed.

(** An instance: the first lot of [X] is the second record, and it covers
    the sale. *)
Lemma sell_settles_first_lot_of_symbol_witness :
  let ledger := [lot "Y" 5 50; lot "X" 10 100; lot "X" 20 90] in
  first_lot "X" ledger = Some (1%nat, lot "X" 10 100)
  ∧ portfolio (sell "X" 4 (Some 120%Q) (session ledger)).1
    = [lot "Y" 5 50; lot "X" 6 100; lot "X" 20 90].
Proof.
  split; [reflexivity|].
  pose proof (sell_settles_first_lot_of_symbol
                (session [lot "Y" 5 50; lot "X" 10 100; lot "X" 20 90])
                "X" 4 120 1 (lot "X" 10 100) eq_refl) as [Hsold _].
  destruct (Hsold 100%Q ltac:(cbn; lia) eq_refl) as [Hledger _].
  exact Hledger.
Defined.

(** The specification's example: lots of 3 and 3 do not cover a sale of 4,
    although together they hold 6. *)
Example sell_four_of_three_and_three :
  sell "X" 4 (Some 120%Q) (session [lot "X" 3 100; lot "X" 3 100]) =
    (session [lot "X" 3 100; lot "X" 3 100], [InsufficientQuantity]).
Proof. vm_compute. reflexivity. Qed.

(** C3, on the code: the handler reports [InsufficientQuantity] for a sale
    of 4 although a single lot of the symbol, the second, holds 10; the
    claim has the sale fail only when no single lot covers it.  The same
    after a first lot is sold out: 5 shares bought and sold, 20 bought, and
    a sale of 1 share is refused with 20 held. *)
Lemma insufficient_although_a_lot_covers :
  let ledger := [lot "X" 3 100; lot "X" 10 100] in
  let later := run_all [ Buy "x" false (Some 100%Q) 5 "2024-01-01";
                         Sell "X" 5 (Some 120%Q);
                         Buy "x" false (Some 100%Q) 20 "2024-01-01" ]
                       (session []) in
  (sell "X" 4 (Some 120%Q) (session ledger)).2 = [InsufficientQuantity]
  ∧ lot "X" 10 100 ∈ ledger
  ∧ Stock (lot "X" 10 100) = "X"
  ∧ (4 ≤ Quantity (lot "X" 10 100))%Z
  ∧ portfolio later = [lot "X" 0 100; lot "X" 20 100]
  ∧ (sell "X" 1 (Some 120%Q) later).2 = [InsufficientQuantity].
Proof.
  cbv zeta. split; [vm_compute; reflexivity|].
  split; [apply list_elem_of_further, list_elem_of_here|].
  split; [reflexivity|]. split; [cbn; lia|].
  split; vm_compute; reflexivity.
Qed.

(** X19. As the Sell handler is written, with a sell price at hand, it
    reports [InsufficientQuantity] exactly when the symbol has a lot and the
    first lot of the symbol in ledger order holds less than the requested
    quantity (whatever later lots, or all its lots together, hold); then
    the error is the handler's only effect: no lot changes and nothing is
    saved. *)
Theorem sell_insufficient_iff_first_lot_short
    (s : state) (stock_to_sell : string) (quantity_to_sell : Z) (sell_price : Q) :
  let r := sell stock_to_sell quantity_to_sell (Some sell_price) s in
  (InsufficientQuantity ∈ r.2 ↔
     ∃ i e, first_lot stock_to_sell (portfolio s) = Some (i, e)
            ∧ (Quantity e < quantity_to_sell)%Z)
  ∧ (InsufficientQuantity ∈ r.2 → r = (s, [InsufficientQuantity])).
Proof.
  cbv zeta. rewrite sell_cases.
  destruct (first_lot stock_to_sell (portfolio s)) as [[i e]|] eqn:Hfirst.
  - destruct (Quantity e >=? quantity_to_sell)%Z eqn:Hq.
    + assert (¬ ∃ i' e', Some (i, e) = Some (i', e') ∧ (Quantity e' < quantity_to_sell)%Z)
        as Hno by (intros (i' & e' & [= <- <-] & Hlt); lia).
      destruct (Buy_Price e); cbn; (split; [split|]); intros H;
        solve [ absent_effect H | destruct (Hno H) ].
    + cbn. split; [|reflexivity].
      split; [|intros _; apply list_elem_of_here].
      intros _. exists i, e. split; [reflexivity|lia].
  - cbn. split; [split|]; intros H; try absent_effect H.
    destruct H as (i & e & [=] & _).
Qed.

(** C10. A sale of a symbol that has no lot in the ledger changes nothing
    and saves nothing, whatever the quantity asked for.  When the sell price
    was fetched, so that the ledger is scanned, it gives no notice either:
    the state is returned as it was and the list of effects is empty.  (When
    the price could not be fetched the ledger is not scanned, and the one
    effect is the notice of that.) *)
Theorem sell_of_absent_symbol_is_silent
    (s : state) (stock_to_sell : string) (quantity_to_sell : Z) (sell_price : option Q) :
  (0 < quantity_to_sell)%Z →
  (∀ e, e ∈ portfolio s → Stock e ≠ stock_to_sell) →
  sell stock_to_sell quantity_to_sell sell_price s =
    (s, match sell_price with Some _ => [] | None => [PriceUnavailable] end).
Proof.
  intros _ Habsent. destruct sell_price as [sell_price|]; [|reflexivity].
  rewrite sell_cases.
  apply first_lot_None in Habsent. rewrite Habsent. reflexivity.
Qed.

(** An instance: no lot of [Z] among lots of [X] and [Y]. *)
Lemma sell_of_absent_symbol_is_silent_witness :
  sell "Z" 4 (Some 120%Q) (session [lot "X" 10 100; lot "Y" 5 50])
  = (session [lot "X" 10 100; lot "Y" 5 50], []).
Proof.
  apply (sell_of_absent_symbol_is_silent
           (session [lot "X" 10 100; lot "Y" 5 50]) "Z" 4 (Some 120%Q)).
  - lia.
  - intros e He. apply first_lot_None with (ledger := [lot "X" 10 100; lot "Y" 5 50]);
      [reflexivity | exact He].
Defined.

(** ** Buying *)

(** What Buy does when the history was fetched but [get_latest_price]
    returned [None]: the record is appended with no price and the file is
    rewritten, and only then does the run stop, on the [TypeError] of the
    notice's format. *)
Lemma buy_click_without_price text quantity_to_buy today s :
  upper text ≠ "" →
  let bought := {| Stock := upper text; Quantity := quantity_to_buy;
                   Buy_Price := None; Buy_Date := today |} in
  buy_click text false None quantity_to_buy today s =
    ({| portfolio := (portfolio s ++ [bought])%list;
        portfolio_file := Some (json_dump (portfolio s ++ [bought])) |},
     [ file_written (json_dump (portfolio s ++ [bought])); TypeError ]).
Proof.
  intros Hsym. cbv zeta. unfold buy_click.
  destruct (decide (upper text = "")) as [Heq|_]; [contradiction|].
  reflexivity.
Qed.

(** C2, on the code: a Buy of [INFY.NS] into the empty ledger, in a run
    where the six-month history is there and the latest price is not.  The
    claim asks for a [PriceUnavailable] failure and an unchanged ledger; the
    handler appends a lot without a price, saves it, and raises, with no
    notice that the price is missing.  The Sell handler, in the same
    situation, gives the notice and changes nothing; and the ledger Buy
    leaves behind makes [calculate_totals] raise. *)
Theorem buy_without_price_appends_and_saves :
  let bought := {| Stock := "INFY.NS"; Quantity := 1;
                   Buy_Price := None; Buy_Date := "2024-01-01" |} in
  buy_click "infy.ns" false None 1 "2024-01-01" (session []) =
    ({| portfolio := [bought]; portfolio_file := Some (json_dump [bought]) |},
     [ file_written (json_dump [bought]); TypeError ])
  ∧ (PriceUnavailable ∉ (buy_click "infy.ns" false None 1 "2024-01-01" (session [])).2)
  ∧ sell "INFY.NS" 1 None (session [bought]) = (session [bought], [PriceUnavailable])
  ∧ calculate_totals (λ _, None) [bought] = None.
Proof.
  cbv zeta. split; [vm_compute; reflexivity|].
  split; [|split; reflexivity].
  intros H. vm_compute in H. absent_effect H.
Qed.

(** ** Quantities stay non-negative *)

Lemma buy_click_non_negative text stock_data_empty latest_price quantity_to_buy today s :
  (1 ≤ quantity_to_buy)%Z →
  non_negative (portfolio s) →
  non_negative (portfolio (buy_click text stock_data_empty latest_price
                             quantity_to_buy today s).1).
Proof.
  intros Hq Hs. unfold buy_click.
  destruct (decide (upper text = "")); [exact Hs|].
  destruct stock_data_empty; [exact Hs|].
  cbn. apply Forall_app. split; [exact Hs|].
  apply Forall_singleton. cbn. lia.
Qed.

Lemma sell_non_negative stock_to_sell quantity_to_sell sell_price s :
  non_negative (portfolio s) →
  non_negative (portfolio (sell stock_to_sell quantity_to_sell sell_price s).1).
Proof.
  intros Hs. destruct sell_price as [sell_price|]; [|exact Hs].
  rewrite sell_cases.
  destruct (first_lot _ _) as [[i e]|]; [|exact Hs].
  destruct (Quantity e >=? quantity_to_sell)%Z eqn:Hq; [|exact Hs].
  destruct (Buy_Price e); [|exact Hs].
  cbn. apply Forall_insert; [exact Hs|]. cbn. lia.
Qed.

Lemma run_non_negative a s :
  in_range a = true →
  non_negative (portfolio s) →
  non_negative (portfolio (run a s).1).
Proof.
  destruct a as [text empty price q today | stock q price | ]; cbn [run in_range].
  - intros Hq. apply buy_click_non_negative. lia.
  - intros _. apply sell_non_negative.
  - intros _ _. constructor.
Qed.

Lemma run_all_non_negative actions s :
  Forall (λ a, in_range a = true) actions →
  non_negative (portfolio s) →
  non_negative (portfolio (run_all actions s)).
Proof.
  unfold run_all. intros Hrange. revert s.
  induction Hrange as [|a actions Ha _ IH]; intros s Hs; [exact Hs|].
  cbn. apply IH, run_non_negative; assumption.
Qed.

(** A lot too small for the request is the same after the sale. *)
Lemma sell_keeps_short_lot stock_to_sell quantity_to_sell sell_price s j e' :
  portfolio s !! j = Some e' →
  (Quantity e' - quantity_to_sell < 0)%Z →
  portfolio (sell stock_to_sell quantity_to_sell sell_price s).1 !! j = Some e'.
Proof.
  intros Hj Hshort. destruct sell_price as [sell_price|]; [|exact Hj].
  rewrite sell_cases.
  destruct (first_lot _ _) as [[i e]|] eqn:Hfirst; [|exact Hj].
  destruct (Quantity e >=? quantity_to_sell)%Z eqn:Hq; [|exact Hj].
  destruct (Buy_Price e); [|exact Hj].
  cbn. apply first_lot_Some in Hfirst as (Hi & _ & _).
  destruct (decide (i = j)) as [->|Hne].
  - assert (e = e') as -> by congruence. lia.
  - rewrite list_lookup_insert_ne; assumption.
Qed.

(** C7. From a ledger whose quantities are all non-negative, any sequence
    of Buy, Sell and Clear clicks (with quantities as the number boxes allow
    them, at least 1) leads to a ledger whose quantities are all
    non-negative.  A sale never touches a lot it would drive below zero;
    and when the lot the sale is settled against is such a lot, the sale
    fails with [InsufficientQuantity] and the whole state is as before. *)
Theorem quantities_never_negative (actions : list action) (s : state) :
  Forall (λ a, in_range a = true) actions →
  non_negative (portfolio s) →
  non_negative (portfolio (run_all actions s))
  ∧ (∀ stock_to_sell quantity_to_sell sell_price j e,
       portfolio s !! j = Some e →
       (Quantity e - quantity_to_sell < 0)%Z →
       portfolio (sell stock_to_sell quantity_to_sell sell_price s).1 !! j = Some e)
  ∧ (∀ stock_to_sell quantity_to_sell sell_price i e,
       first_lot stock_to_sell (portfolio s) = Some (i, e) →
       (Quantity e - quantity_to_sell < 0)%Z →
       sell stock_to_sell quantity_to_sell (Some sell_price) s
         = (s, [InsufficientQuantity])).
Proof.
  intros Hrange Hs. split; [apply run_all_non_negative; assumption|].
  split.
  - intros. apply sell_keeps_short_lot; assumption.
  - intros stock q sp i e Hfirst Hshort.
    rewrite sell_cases, Hfirst.
    assert ((Quantity e >=? q)%Z = false) as -> by lia. reflexivity.
Qed.

(** An instance: a run of clicks that sells a lot down to zero. *)
Lemma quantities_never_negative_witness :
  let clicks := [ Buy "x" false (Some 100%Q) 10 "2024-01-01";
                  Sell "X" 4 (Some 120%Q);
                  Sell "X" 7 (Some 120%Q);
                  Sell "X" 6 (Some 90%Q);
                  Buy "y" false (Some 5%Q) 1 "2024-01-01" ] in
  portfolio (run_all clicks (session [])) = [lot "X" 0 100; lot "Y" 1 5]
  ∧ non_negative (portfolio (run_all clicks (session []))).
Proof.
  cbv zeta. split; [reflexivity|].
  apply (quantities_never_negative
           [ Buy "x" false (Some 100%Q) 10 "2024-01-01";
             Sell "X" 4 (Some 120%Q);
             Sell "X" 7 (Some 120%Q);
             Sell "X" 6 (Some 90%Q);
             Buy "y" false (Some 5%Q) 1 "2024-01-01" ]
           (session [])).
  - repeat constructor.
  - constructor.
Defined.

(** ** Aggregation *)

(** *** Sums of quantities *)

Lemma sum_Z_foldr (l : list Z) : sum_Z l = foldr Z.add 0%Z l.
Proof.
  unfold sum_Z.
  assert (∀ a, fold_left Z.add l a = (a + foldr Z.add 0 l)%Z) as H.
  { induction l as [|x l IH]; intros a; cbn; [lia|]. rewrite IH. lia. }
  rewrite H. lia.
Qed.

Lemma sum_Z_app (l k : list Z) : sum_Z (l ++ k) = (sum_Z l + sum_Z k)%Z.
Proof.
  rewrite !sum_Z_foldr. induction l as [|x l IH]; cbn; [reflexivity|].
  rewrite IH. lia.
Qed.

Lemma sum_Z_cons (x : Z) (l : list Z) : sum_Z (x :: l) = (x + sum_Z l)%Z.
Proof. rewrite !sum_Z_foldr. reflexivity. Qed.


(** *** The groups partition the ledger *)




Lemma symbols_iterates (ledger : list entry) : iterates ledger (symbols ledger).
Proof.
  split; [apply NoDup_remove_dups|].
  intros s. apply elem_of_remove_dups.
Qed.

(** *** The loop of [calculate_totals] on a priced ledger *)

Lemma priced_stock_entries (ledger : list entry) (stock : string) :
  priced ledger → priced (stock_entries ledger stock).
Proof.
  unfold priced, stock_entries. rewrite !Forall_forall.
  intros Hall e He. apply list_elem_of_filter in He as [_ He]. auto.
Qed.

Lemma mapM_invested_priced (ledger : list entry) :
  priced ledger → mapM invested ledger = Some (amount <$> ledger).
Proof.
  induction 1 as [|e ledger [bp Hbp] _ IH]; [reflexivity|].
  cbn [mapM fmap list_fmap]. rewrite IH.
  unfold amount, invested. rewrite Hbp. reflexivity.
Qed.

Lemma total_invested_stock_priced (ledger : list entry) :
  priced ledger → total_invested_stock ledger = Some (sum_Q (amount <$> ledger)).
Proof.
  intros Hp. unfold total_invested_stock.
  rewrite mapM_invested_priced by assumption. reflexivity.
Qed.

Lemma stock_figures_priced oracle (ledger : list entry) (stock : string) :
  priced ledger →
  stock_figures oracle ledger stock = Some (figures_of oracle ledger stock).
Proof.
  intros Hp. unfold stock_figures, figures_of.
  rewrite total_invested_stock_priced by (apply priced_stock_entries; assumption).
  cbn. destruct (oracle stock); reflexivity.
Qed.

Lemma mapM_stock_figures_priced oracle (ledger : list entry) (order : list string) :
  priced ledger →
  mapM (stock_figures oracle ledger) order = Some (figures_of oracle ledger <$> order).
Proof.
  intros Hp. induction order as [|stock order IH]; [reflexivity|].
  cbn [mapM fmap list_fmap]. rewrite IH, stock_figures_priced by assumption.
  reflexivity.
Qed.

(** The loop, from any accumulators, in terms of the figures of each
    symbol. *)
Lemma totals_loop_figures oracle (ledger : list entry) (order : list string)
    (rows : list stock_total) (ti tpl : Q) :
  totals_loop oracle ledger order (rows, ti, tpl) =
    fs ← mapM (stock_figures oracle ledger) order;
    Some ((rows ++ zip_with stock_row order fs)%list,
          fold_left (λ acc f, acc + fig_invested f)%Q fs ti,
          fold_left (λ acc f, acc + fig_profit_loss f)%Q fs tpl).
Proof.
  revert rows ti tpl. induction order as [|stock order IH]; intros rows ti tpl.
  - cbn. rewrite app_nil_r. reflexivity.
  - cbn [totals_loop mapM].
    destruct (stock_figures oracle ledger stock) as [f|]; [|reflexivity].
    cbn [mbind option_bind]. rewrite IH.
    destruct (mapM (stock_figures oracle ledger) order) as [fs|]; [|reflexivity].
    cbn. rewrite <- app_assoc. reflexivity.
Qed.

Lemma calculate_totals_in_figures oracle (order : list string) (ledger : list entry) :
  calculate_totals_in oracle order ledger =
    fs ← mapM (stock_figures oracle ledger) order;
    Some (zip_with stock_row order fs,
          fold_left (λ acc f, acc + fig_invested f)%Q fs 0%Q,
          fold_left (λ acc f, acc + fig_profit_loss f)%Q fs 0%Q).
Proof. unfold calculate_totals_in. rewrite totals_loop_figures. reflexivity. Qed.

(** A lot without a buy price makes the aggregation raise. *)
Lemma calculate_totals_in_raises oracle (order : list string) (ledger : list entry)
    (e : entry) :
  iterates ledger order → e ∈ ledger → Buy_Price e = None →
  calculate_totals_in oracle order ledger = None.
Proof.
  intros [_ Hall] He Hnone. rewrite calculate_totals_in_figures.
  assert (mapM (stock_figures oracle ledger) order = None) as ->; [|reflexivity].
  apply mapM_None, Exists_exists. exists (Stock e).
  split; [apply Hall, list_elem_of_fmap; eauto|].
  unfold stock_figures, total_invested_stock.
  assert (mapM invested (stock_entries ledger (Stock e)) = None) as ->; [|reflexivity].
  apply mapM_None, Exists_exists. exists e.
  split; [apply list_elem_of_filter; auto|].
  unfold invested. rewrite Hnone. reflexivity.
Qed.

Lemma zip_with_fmap_r {A B C} (g : A → B → C) (h : A → B) (l : list A) :
  zip_with g l (h <$> l) = (λ x, g x (h x)) <$> l.
Proof. induction l as [|x l IH]; cbn; [reflexivity|]. rewrite IH. reflexivity. Qed.

(** On a priced ledger the aggregation returns, and returns this. *)
Lemma calculate_totals_in_priced oracle (order : list string) (ledger : list entry) :
  priced ledger →
  calculate_totals_in oracle order ledger =
    Some ((λ stock, stock_row stock (figures_of oracle ledger stock)) <$> order,
          fold_left (λ acc f, acc + fig_invested f)%Q (figures_of oracle ledger <$> order) 0%Q,
          fold_left (λ acc f, acc + fig_profit_loss f)%Q (figures_of oracle ledger <$> order) 0%Q).
Proof.
  intros Hp. rewrite calculate_totals_in_figures, mapM_stock_figures_priced by assumption.
  cbn [mbind option_bind]. rewrite zip_with_fmap_r. reflexivity.
Qed.

(** The rows of a symbol among the rows of distinct symbols. *)
Lemma rows_of_symbol (g : string → figures) (order : list string) (stock : string) :
  NoDup order → stock ∈ order →
  filter (λ r, row_Stock r = stock) ((λ s, stock_row s (g s)) <$> order)
    = [stock_row stock (g stock)].
Proof.
  induction 1 as [|s order Hs Hnodup IH]; intros Hin.
  - apply elem_of_nil in Hin. destruct Hin.
  - cbn [fmap list_fmap]. rewrite filter_cons. cbn [row_Stock stock_row].
    destruct (decide (s = stock)) as [->|Hne].
    + f_equal. clear IH Hin Hnodup.
      induction order as [|s' order IH]; [reflexivity|].
      cbn [fmap list_fmap]. rewrite filter_cons. cbn [row_Stock stock_row].
      apply not_elem_of_cons in Hs as [Hne Hs].
      destruct (decide (s' = stock)); [congruence|]. auto.
    + apply elem_of_cons in Hin as [->|Hin]; [contradiction|]. auto.
Qed.

(** *** Symbols without a price *)

(** C4, on the code: five shares of [Y] bought at 100, then one more in a
    run where the price could not be fetched (the defect of C2), and no
    price for [Y] at aggregation time.  The claim has [Y] reported at cost,
    with no error; [calculate_totals] raises instead ([None * 1]), in
    whichever way it is called. *)
Theorem aggregation_raises_after_buy_without_price :
  let clicks := [ Buy "y" false (Some 100%Q) 5 "2024-01-01";
                  Buy "y" false None 1 "2024-01-01" ] in
  let ledger := portfolio (run_all clicks (session [])) in
  ledger = [ lot "Y" 5 100;
             {| Stock := "Y"; Quantity := 1; Buy_Price := None;
                Buy_Date := "2024-01-01" |} ]
  ∧ iterates ledger ["Y"]
  ∧ calculate_totals_in (λ _, None) ["Y"] ledger = None
  ∧ calculate_totals (λ _, None) ledger = None.
Proof.
  cbv zeta. split; [reflexivity|]. split; [|split; reflexivity].
  split.
  - repeat constructor. intros H. apply elem_of_nil in H. exact H.
  - intros s. vm_compute (Stock <$> _). rewrite !elem_of_cons, !elem_of_nil. tauto.
Qed.

(** *** Additivity *)


Lemma fig_quantity_figures_of oracle (ledger : list entry) (stock : string) :
  fig_quantity (figures_of oracle ledger stock)
  = total_quantity (stock_entries ledger stock).
Proof. unfold figures_of. destruct (oracle stock); reflexivity. Qed.

Lemma row_Stock_rows (g : string → figures) (order : list string) :
  row_Stock <$> ((λ s, stock_row s (g s)) <$> order) = order.
Proof.
  induction order as [|s order IH]; [reflexivity|].
  cbn [fmap list_fmap]. cbn [fmap list_fmap] in IH. rewrite IH. reflexivity.
Qed.






(** *** The grouping key *)

Lemma upper_ascii_idempotent (c : ascii) : upper_ascii (upper_ascii c) = upper_ascii c.
Proof.
  destruct c as [b0 b1 b2 b3 b4 b5 b6 b7].
  destruct b0, b1, b2, b3, b4, b5, b6, b7; reflexivity.
Qed.

Lemma upper_idempotent (s : string) : upper (upper s) = upper s.
Proof.
  induction s as [|c s IH]; [reflexivity|].
  cbn [upper]. rewrite upper_ascii_idempotent, IH. reflexivity.
Qed.

(** Symbols are put in upper case where they are typed in, so the ledgers
    the handlers build keep them so. *)
Lemma run_normalized (a : action) (s : state) :
  normalized (portfolio s) → normalized (portfolio (run a s).1).
Proof.
  intros Hs. destruct a as [text empty price q today | stock q price | ]; cbn [run].
  - unfold buy_click.
    destruct (decide (upper text = "")); [exact Hs|].
    destruct empty; [exact Hs|].
    cbn. apply Forall_app. split; [exact Hs|].
    apply Forall_singleton. cbn. apply upper_idempotent.
  - destruct price as [price|]; [|exact Hs].
    rewrite sell_cases.
    destruct (first_lot _ _) as [[i e]|] eqn:Hfirst; [|exact Hs].
    destruct (Quantity e >=? q)%Z; [|exact Hs].
    destruct (Buy_Price e); [|exact Hs].
    cbn. apply Forall_insert; [exact Hs|]. cbn.
    apply first_lot_Some in Hfirst as (Hi & _ & _).
    unfold normalized in Hs. rewrite Forall_lookup in Hs. exact (Hs i e Hi).
  - constructor.
Qed.

Lemma run_all_normalized (actions : list action) (s : state) :
  normalized (portfolio s) → normalized (portfolio (run_all actions s)).
Proof.
  unfold run_all. revert s.
  induction actions as [|a actions IH]; intros s Hs; [exact Hs|].
  cbn. apply IH, run_normalized, Hs.
Qed.

(** C6, as stated, fails: a ledger (as a saved file can hold it) with the
    lots [infy] and [INFY], which differ only in letter case, is aggregated
    into two rows, in whichever order the two symbols are visited. *)
Lemma case_variants_get_separate_rows :
  let ledger := [lot "infy" 1 10; lot "INFY" 2 10] in
  let shown := λ r : list stock_total * Q * Q,
                 (row_Stock <$> r.1.1, row_Quantity <$> r.1.1) in
  upper "infy" = upper "INFY"
  ∧ load_portfolio (Some (json_dump ledger)) = Some ledger
  ∧ shown <$> calculate_totals_in (λ _, None) ["infy"; "INFY"] ledger
    = Some (["infy"; "INFY"], [1; 2]%Z)
  ∧ shown <$> calculate_totals_in (λ _, None) ["INFY"; "infy"] ledger
    = Some (["INFY"; "infy"], [2; 1]%Z).
Proof. cbv zeta. repeat split; vm_compute; reflexivity. Qed.

(** C6, amended. [calculate_totals] groups lots by the symbol string as it
    is: each lot has exactly one row, the row of its symbol, and two lots
    share their row exactly when their symbols are equal strings.  Letter
    case is normalised where symbols are typed in, not here; so lots whose
    symbols are in upper case and differ only in letter case do share a
    row. *)
Theorem aggregation_groups_by_exact_symbol
    (get_latest_price : string → option Q) (ledger : list entry) (order : list string) :
  iterates ledger order →
  priced ledger →
  ∃ rows total_invested total_profit_loss,
    calculate_totals_in get_latest_price order ledger
      = Some (rows, total_invested, total_profit_loss)
    ∧ ∀ e1 e2, e1 ∈ ledger → e2 ∈ ledger →
        ∃ r1 r2,
          filter (λ r, row_Stock r = Stock e1) rows = [r1]
          ∧ filter (λ r, row_Stock r = Stock e2) rows = [r2]
          ∧ row_Quantity r1 = total_quantity (stock_entries ledger (Stock e1))
          ∧ row_Quantity r2 = total_quantity (stock_entries ledger (Stock e2))
          ∧ (r1 = r2 ↔ Stock e1 = Stock e2)
          ∧ (upper (Stock e1) = Stock e1 → upper (Stock e2) = Stock e2 →
             upper (Stock e1) = upper (Stock e2) → r1 = r2).
Proof.
  intros [Hnodup Hall] Hp.
  eexists _, _, _. split; [apply calculate_totals_in_priced, Hp|].
  intros e1 e2 He1 He2.
  assert (∀ e, e ∈ ledger → Stock e ∈ order) as Hin
    by (intros e He; apply Hall, list_elem_of_fmap; eauto).
  eexists _, _.
  split; [apply rows_of_symbol; auto|].
  split; [apply rows_of_symbol; auto|].
  split; [cbn; apply fig_quantity_figures_of|].
  split; [cbn; apply fig_quantity_figures_of|].
  split; [split|].
  - intros Heq. apply (f_equal row_Stock) in Heq. exact Heq.
  - intros ->. reflexivity.
  - intros H1 H2 Heq. rewrite H1, H2 in Heq. rewrite Heq. reflexivity.
Qed.

(** An instance: the two lots of [INFY] share one row. *)
Lemma aggregation_groups_by_exact_symbol_witness :
  let ledger := [lot "INFY" 1 10; lot "TCS" 3 20; lot "INFY" 2 12] in
  ∃ rows total_invested total_profit_loss r,
    calculate_totals_in (λ _, None) ["TCS"; "INFY"] ledger
      = Some (rows, total_invested, total_profit_loss)
    ∧ filter (λ r, row_Stock r = "INFY") rows = [r]
    ∧ row_Quantity r = 3%Z.
Proof.
  cbv zeta.
  destruct (aggregation_groups_by_exact_symbol (λ _, None)
              [lot "INFY" 1 10; lot "TCS" 3 20; lot "INFY" 2 12] ["TCS"; "INFY"])
    as (rows & ti & tpl & Hcalc & Hrows).
  - split.
    + repeat constructor; intros H; repeat (apply elem_of_cons in H as [H|H]; [discriminate H|]);
        apply elem_of_nil in H; exact H.
    + intros s. cbn. rewrite !elem_of_cons, !elem_of_nil. tauto.
  - repeat constructor; eexists; reflexivity.
  - destruct (Hrows (lot "INFY" 1 10) (lot "INFY" 2 12)) as (r1 & r2 & H1 & _ & Hq & _).
    + apply list_elem_of_here.
    + apply list_elem_of_further, list_elem_of_further, list_elem_of_here.
    + exists rows, ti, tpl, r1. split; [exact Hcalc|]. split; [exact H1|].
      rewrite Hq. reflexivity.
Defined.

(** *** What the rows hold *)

Lemma rupees_prefix (x : Q) : String.prefix rupee (rupees x) = true.
Proof.
  unfold rupees. generalize (format_2f x). intros t.
  destruct t; vm_compute; reflexivity.
Qed.

(** C9, as stated, fails: the money columns of a row are strings that
    begin with the rupee sign and show the amount rounded to two decimals;
    [1/8] and [3/25] are shown alike. *)
Lemma rows_carry_currency_and_rounding :
  (λ r : list stock_total * Q * Q, r.1.1)
    <$> calculate_totals (λ _, Some (1 # 3)%Q) [lot "X" 1 (1 # 8)]
  = Some [ {| row_Stock := "X"; row_Quantity := 1;
              row_Total_Invested := rupee +:+ "0.12";
              row_Current_Value := rupee +:+ "0.33";
              row_Profit_Loss := rupee +:+ "0.21" |} ]
  ∧ rupees (1 # 8) = rupees (3 # 25)
  ∧ ¬ (1 # 8 == 3 # 25)%Q.
Proof. repeat split; [vm_compute; reflexivity.. | discriminate]. Qed.

(** C9, amended. On a ledger whose lots all carry a buy price, the two
    portfolio totals [calculate_totals] returns are the plain sums of the
    symbols' figures, with no rounding, and a row's quantity is the plain
    integer; a row's total invested, current value and profit or loss are
    strings: the rupee sign followed by the figure rounded to two
    decimals. *)
Theorem totals_are_numbers_and_rows_are_formatted
    (get_latest_price : string → option Q) (ledger : list entry) (order : list string) :
  priced ledger →
  ∃ fs,
    mapM (stock_figures get_latest_price ledger) order = Some fs
    ∧ calculate_totals_in get_latest_price order ledger
      = Some (zip_with stock_row order fs,
              fold_left (λ acc f, acc + fig_invested f)%Q fs 0%Q,
              fold_left (λ acc f, acc + fig_profit_loss f)%Q fs 0%Q)
    ∧ ∀ r, r ∈ zip_with stock_row order fs →
        ∃ stock f,
          stock ∈ order ∧ f ∈ fs
          ∧ r = {| row_Stock := stock;
                   row_Quantity := fig_quantity f;
                   row_Total_Invested := rupee +:+ format_2f (fig_invested f);
                   row_Current_Value := rupee +:+ format_2f (fig_current_value f);
                   row_Profit_Loss := rupee +:+ format_2f (fig_profit_loss f) |}
          ∧ String.prefix rupee (row_Total_Invested r) = true
          ∧ String.prefix rupee (row_Current_Value r) = true
          ∧ String.prefix rupee (row_Profit_Loss r) = true.
Proof.
  intros Hp. eexists. split; [apply mapM_stock_figures_priced, Hp|].
  split.
  { rewrite calculate_totals_in_figures, mapM_stock_figures_priced by assumption.
    reflexivity. }
  intros r Hr. apply elem_of_zip_with in Hr as (stock & f & -> & Hs & Hf).
  exists stock, f.
  split; [exact Hs|]. split; [exact Hf|].
  split; [reflexivity|]. repeat split; apply rupees_prefix.
Qed.

(** An instance: the totals keep [1/8] and [1/3 - 1/8] as they are, the row
    shows them rounded. *)
Lemma totals_are_numbers_and_rows_are_formatted_witness :
  calculate_totals_in (λ _, Some (1 # 3)%Q) ["X"] [lot "X" 1 (1 # 8)]
  = Some ([ {| row_Stock := "X"; row_Quantity := 1;
               row_Total_Invested := rupee +:+ "0.12";
               row_Current_Value := rupee +:+ "0.33";
               row_Profit_Loss := rupee +:+ "0.21" |} ],
          (0 + (0 + (1 # 8) * 1))%Q,
          (0 + (1 * (1 # 3) - (0 + (1 # 8) * 1)))%Q).
Proof.
  destruct (totals_are_numbers_and_rows_are_formatted (λ _, Some (1 # 3)%Q)
              [lot "X" 1 (1 # 8)] ["X"]) as (fs & Hfs & Hcalc & _).
  - repeat constructor; eexists; reflexivity.
  - rewrite Hcalc. cbn in Hfs. injection Hfs as <-. reflexivity.
Defined.

(** ** The file follows the session *)

(** The handlers save whenever they change the ledger: if the file held
    the session's ledger before a click, it holds it after. *)
Lemma run_keeps_file_in_step (a : action) (s : state) :
  load_portfolio (portfolio_file s) = Some (portfolio s) →
  load_portfolio (portfolio_file (run a s).1) = Some (portfolio (run a s).1).
Proof.
  intros Hs. destruct a as [text empty price q today | stock q price | ]; cbn [run].
  - unfold buy_click.
    destruct (decide (upper text = "")); [exact Hs|].
    destruct empty; [exact Hs|].
    apply json_load_dump.
  - destruct price as [price|]; [|exact Hs].
    rewrite sell_cases.
    destruct (first_lot _ _) as [[i e]|]; [|exact Hs].
    destruct (Quantity e >=? q)%Z; [|exact Hs].
    destruct (Buy_Price e); [|exact Hs].
    apply json_load_dump.
  - reflexivity.
Qed.

(** * Further properties of the script *)

(** Settles [iterates ledger order] for a ledger and an order given in
    full. *)
Ltac iterates_by_computation :=
  split;
  [ repeat constructor; intros H;
    repeat (apply elem_of_cons in H as [H|H]; [discriminate H|]);
    apply elem_of_nil in H; exact H
  | intros s;
    match goal with
    | |- context [Stock <$> ?l] =>
        let v := eval vm_compute in (Stock <$> l) in change (Stock <$> l) with v
    end;
    rewrite !elem_of_cons, !elem_of_nil; tauto ].

(** ** The price feed *)

(** X1. [get_latest_price] never lets a failure of the fetch through: an
    exception is shown once by [st.error], with the symbol and the text of
    the exception, and the answer is [None].  It answers with a price
    exactly when the fetch returned at least one row, and the price is then
    the close of the last row; nothing is shown in that case. *)
Theorem get_latest_price_last_close (stock_symbol : string) (history : list Q + string) :
  let r := get_latest_price stock_symbol history in
  (is_Some r.1 ↔ ∃ data, history = inl data ∧ data ≠ [])
  ∧ (∀ data, history = inl data → r.2 = [] ∧ r.1 = last data
       ∧ ∀ older latest, data = (older ++ [latest])%list → r.1 = Some latest)
  ∧ (∀ e, history = inr e →
       r = (None, [st_error ("Error fetching data for " +:+ stock_symbol +:+ ": " +:+ e)])).
Proof.
  cbv zeta. destruct history as [data|e]; cbn.
  - split; [|split].
    + destruct data as [|x data]; cbn.
      * split; [intros [p [=]] | intros (d & [= <-] & Hne); contradiction].
      * split; [intros _; eexists; split; [reflexivity|discriminate]|].
        intros _. rewrite last_cons. destruct (last data); eexists; reflexivity.
    + intros d [= <-]. split; [reflexivity|].
      split; [destruct data; reflexivity|].
      intros older latest ->. rewrite last_snoc.
      destruct older; reflexivity.
    + intros e [=].
  - split; [|split].
    + split; [intros [p [=]] | intros (d & [=] & _)].
    + intros d [=].
    + intros e' [= <-]. reflexivity.
Qed.

(** ** Saving *)

(** X2. A click rewrites [portfolio.json] at most once, and when it does,
    what it writes is the ledger the session holds after the click; a click
    that writes nothing has left the session and the file as they were. *)
Theorem run_writes_what_it_changes (a : action) (s : state) :
  let r := run a s in
  ((∀ doc, file_written doc ∉ r.2) ∧ r.1 = s)
  ∨ (∃ rest,
       r.2 = file_written (json_dump (portfolio r.1)) :: rest
       ∧ (∀ doc, file_written doc ∉ rest)
       ∧ portfolio_file r.1 = Some (json_dump (portfolio r.1))).
Proof.
  cbv zeta.
  assert (∀ t : list effect, t = [] → ∀ doc, file_written doc ∉ t) as Hnil
    by (intros t -> doc H; absent_effect H).
  destruct a as [text empty price q today | stock q price | ]; cbn [run].
  - unfold buy_click.
    destruct (decide (upper text = "")); [left; split; [apply Hnil|]; reflexivity|].
    destruct empty; [left; split; [apply Hnil|]; reflexivity|].
    right. eexists. split; [reflexivity|]. split; [|reflexivity].
    intros doc H. destruct price; absent_effect H.
  - destruct price as [price|].
    + rewrite sell_cases.
      destruct (first_lot _ _) as [[i e]|]; [|left; split; [apply Hnil|]; reflexivity].
      destruct (Quantity e >=? q)%Z.
      * destruct (Buy_Price e).
        -- right. eexists. split; [reflexivity|]. split; [|reflexivity].
           intros doc H. absent_effect H.
        -- left. split; [|reflexivity]. intros doc H. absent_effect H.
      * left. split; [|reflexivity]. intros doc H. absent_effect H.
    + left. split; [|reflexivity]. intros doc H. absent_effect H.
  - right. eexists. split; [reflexivity|]. split; [|reflexivity].
    intros doc H. absent_effect H.
Qed.

(** X3. Whatever is clicked, in whatever order, a session that started in
    step with [portfolio.json] stays in step with it: loading the file
    after the clicks gives the ledger the session holds, so a new session
    resumes where the last one stopped. *)
Theorem reload_resumes_session (actions : list action) (s : state) :
  load_portfolio (portfolio_file s) = Some (portfolio s) →
  session_portfolio None (portfolio_file (run_all actions s))
    = Some (portfolio (run_all actions s)).
Proof.
  unfold run_all, session_portfolio. revert s.
  induction actions as [|a actions IH]; intros s Hs; [exact Hs|].
  cbn. apply IH, run_keeps_file_in_step, Hs.
Qed.

(** An instance: a first session with no file yet. *)
Lemma reload_resumes_session_witness :
  let clicks := [ Buy "tcs.ns" false (Some 3500%Q) 2 "2024-01-01";
                  Sell "TCS.NS" 1 (Some 3600%Q);
                  Sell "TCS.NS" 5 (Some 3600%Q) ] in
  session_portfolio None (portfolio_file (run_all clicks (session [])))
  = Some [ {| Stock := "TCS.NS"; Quantity := 1; Buy_Price := Some 3500%Q;
              Buy_Date := "2024-01-01" |} ].
Proof.
  cbv zeta.
  rewrite (reload_resumes_session
             [ Buy "tcs.ns" false (Some 3500%Q) 2 "2024-01-01";
               Sell "TCS.NS" 1 (Some 3600%Q);
               Sell "TCS.NS" 5 (Some 3600%Q) ]
             (session []) eq_refl).
  reflexivity.
Defined.

(** ** What a sale leaves alone *)

(** The ledger after a sale that is settled. *)
Lemma sell_ledger_cases stock_to_sell quantity_to_sell sell_price s :
  portfolio (sell stock_to_sell quantity_to_sell sell_price s).1 = portfolio s
  ∨ ∃ i e, portfolio s !! i = Some e
           ∧ Stock e = stock_to_sell
           ∧ (quantity_to_sell ≤ Quantity e)%Z
           ∧ portfolio (sell stock_to_sell quantity_to_sell sell_price s).1
             = <[i := decrement quantity_to_sell e]> (portfolio s).
Proof.
  destruct sell_price as [sell_price|]; [|left; reflexivity].
  rewrite sell_cases.
  destruct (first_lot _ _) as [[i e]|] eqn:Hfirst; [|left; reflexivity].
  destruct (Quantity e >=? quantity_to_sell)%Z eqn:Hq; [|left; reflexivity].
  destruct (Buy_Price e); [|left; reflexivity].
  right. exists i, e. apply first_lot_Some in Hfirst as (Hi & Hs & _).
  repeat split; [assumption..|lia].
Qed.

(** X4. A Sell click, whatever it is asked and however it ends, removes no
    lot and adds none, and changes at most one lot; a lot it changes keeps
    its symbol, buy price and buy date, held at least the quantity asked
    for, and has exactly that quantity taken off. *)
Theorem sell_changes_one_quantity_at_most
    (stock_to_sell : string) (quantity_to_sell : Z) (sell_price : option Q) (s : state) :
  let ledger' := portfolio (sell stock_to_sell quantity_to_sell sell_price s).1 in
  length ledger' = length (portfolio s)
  ∧ Forall2 (λ e e', e' = e
                     ∨ (e' = decrement quantity_to_sell e
                        ∧ Stock e = stock_to_sell
                        ∧ (quantity_to_sell ≤ Quantity e)%Z))
            (portfolio s) ledger'
  ∧ (∀ i j, ledger' !! i ≠ portfolio s !! i → ledger' !! j ≠ portfolio s !! j → i = j).
Proof.
  cbv zeta.
  destruct (sell_ledger_cases stock_to_sell quantity_to_sell sell_price s)
    as [-> | (k & e & Hk & Hs & Hq & ->)].
  - split; [reflexivity|]. split; [|intros i j Hi; contradiction].
    apply Forall2_same_length_lookup. split; [reflexivity|].
    intros i x y Hx Hy. left. congruence.
  - split; [apply length_insert|]. split.
    + apply Forall2_same_length_lookup. split; [symmetry; apply length_insert|].
      intros i x y Hx Hy. destruct (decide (k = i)) as [->|Hne].
      * rewrite list_lookup_insert_eq in Hy by (eapply lookup_lt_Some, Hk).
        right. assert (x = e) as -> by congruence.
        split; [congruence|]. split; assumption.
      * rewrite list_lookup_insert_ne in Hy by assumption. left. congruence.
    + intros i j Hi Hj.
      destruct (decide (k = i)) as [<-|Hne];
        [|rewrite list_lookup_insert_ne in Hi by assumption; contradiction].
      destruct (decide (k = j)) as [<-|Hne];
        [reflexivity|rewrite list_lookup_insert_ne in Hj by assumption; contradiction].
Qed.

Lemma shrunk_refl (e : entry) : shrunk e e.
Proof. repeat split. reflexivity. Qed.

Lemma shrunk_trans (e1 e2 e3 : entry) : shrunk e1 e2 → shrunk e2 e3 → shrunk e1 e3.
Proof.
  intros (Hs & Hp & Hd & Hq) (Hs' & Hp' & Hd' & Hq').
  repeat split; [congruence..|lia].
Qed.

Lemma extends_refl (ledger : list entry) : extends ledger ledger.
Proof. intros i e Hi. exists e. split; [exact Hi | apply shrunk_refl]. Qed.

Lemma extends_trans (l1 l2 l3 : list entry) : extends l1 l2 → extends l2 l3 → extends l1 l3.
Proof.
  intros H12 H23 i e Hi.
  destruct (H12 i e Hi) as (e2 & Hi2 & Hs2).
  destruct (H23 i e2 Hi2) as (e3 & Hi3 & Hs3).
  exists e3. split; [exact Hi3 | eapply shrunk_trans; eassumption].
Qed.

(** One click other than Clear, with a quantity the number box allows. *)
Lemma run_extends (a : action) (s : state) :
  in_range a = true → keeps_ledger a = true →
  extends (portfolio s) (portfolio (run a s).1).
Proof.
  destruct a as [text empty price q today | stock q price | ];
    cbn [run in_range keeps_ledger]; intros Hrange Hkeep; [| |discriminate].
  - unfold buy_click.
    destruct (decide (upper text = "")); [apply extends_refl|].
    destruct empty; [apply extends_refl|].
    intros i e Hi. exists e. split; [|apply shrunk_refl].
    cbn. apply lookup_app_l_Some, Hi.
  - destruct (sell_ledger_cases stock q price s) as [-> | (k & e & Hk & _ & _ & ->)];
      [apply extends_refl|].
    intros i x Hi. destruct (decide (k = i)) as [->|Hne].
    + exists (decrement q x). assert (x = e) as -> by congruence.
      split; [apply list_lookup_insert_eq; eapply lookup_lt_Some, Hk|].
      repeat split. cbn. lia.
    + exists x. split; [|apply shrunk_refl].
      rewrite list_lookup_insert_ne by assumption. exact Hi.
Qed.

Lemma run_all_extends (actions : list action) (s : state) :
  Forall (λ a, in_range a = true ∧ keeps_ledger a = true) actions →
  extends (portfolio s) (portfolio (run_all actions s)).
Proof.
  unfold run_all. intros Hall. revert s.
  induction Hall as [|a actions [Hrange Hkeep] _ IH]; intros s; [apply extends_refl|].
  cbn [fold_left].
  apply (extends_trans _ (portfolio (run a s).1));
    [apply run_extends; assumption | apply IH].
Qed.

(** The first lot of a symbol stays the first lot of the symbol. *)
Lemma first_lot_extends (ledger ledger' : list entry) (stock : string) i e :
  extends ledger ledger' →
  first_lot stock ledger = Some (i, e) →
  ∃ e', first_lot stock ledger' = Some (i, e') ∧ shrunk e e'.
Proof.
  intros Hext Hfirst. apply first_lot_Some in Hfirst as (Hi & Hs & Hbefore).
  destruct (Hext i e Hi) as (e' & Hi' & Hshrunk).
  exists e'. split; [|exact Hshrunk].
  unfold first_lot. apply list_find_Some.
  split; [exact Hi'|]. split; [destruct Hshrunk as (-> & _); exact Hs|].
  intros j y' Hj Hlt.
  assert (is_Some (ledger !! j)) as [y Hy]
    by (apply lookup_lt_is_Some; apply lookup_lt_Some in Hi; lia).
  destruct (Hext j y Hy) as (y'' & Hj' & (Hsame & _)).
  assert (y'' = y') as -> by congruence.
  rewrite Hsame. eapply Hbefore; eassumption.
Qed.

(** X5. As long as Clear Portfolio is not clicked, a lot once in the ledger
    stays in it, at the same place, with the same symbol, buy price and buy
    date, and its quantity never goes up: Buy only appends, Sell only takes
    off (quantities as the number boxes allow them, at least 1). *)
Theorem lots_stay_and_only_shrink (actions : list action) (s : state) (i : nat) (e : entry) :
  Forall (λ a, in_range a = true ∧ keeps_ledger a = true) actions →
  portfolio s !! i = Some e →
  ∃ e', portfolio (run_all actions s) !! i = Some e'
        ∧ Stock e' = Stock e ∧ Buy_Price e' = Buy_Price e ∧ Buy_Date e' = Buy_Date e
        ∧ (Quantity e' ≤ Quantity e)%Z.
Proof. intros Hall Hi. exact (run_all_extends actions s Hall i e Hi). Qed.

(** An instance: the lot of [X] after a purchase and two sales. *)
Lemma lots_stay_and_only_shrink_witness :
  let clicks := [ Buy "x" false (Some 90%Q) 5 "2024-02-01";
                  Sell "X" 4 (Some 120%Q);
                  Sell "X" 6 (Some 120%Q) ] in
  ∃ e', portfolio (run_all clicks (session [lot "X" 10 100])) !! 0%nat = Some e'
        ∧ Stock e' = "X" ∧ Buy_Price e' = Some 100%Q ∧ Buy_Date e' = "2024-01-01"
        ∧ (Quantity e' ≤ 10)%Z.
Proof.
  cbv zeta.
  apply (lots_stay_and_only_shrink
           [ Buy "x" false (Some 90%Q) 5 "2024-02-01";
             Sell "X" 4 (Some 120%Q);
             Sell "X" 6 (Some 120%Q) ]
           (session [lot "X" 10 100]) 0 (lot "X" 10 100)).
  - repeat constructor.
  - reflexivity.
Defined.

(** X6. As long as Clear Portfolio is not clicked, the first lot of a symbol
    remains the lot every sale of that symbol is settled against, also once
    it is sold out: after any such clicks, a sale of more than that lot held
    at the start fails with [InsufficientQuantity] and changes nothing,
    whatever was bought since. *)
Theorem first_lot_keeps_gating_sales
    (actions : list action) (s : state) (stock : string) (i : nat) (e : entry) :
  Forall (λ a, in_range a = true ∧ keeps_ledger a = true) actions →
  first_lot stock (portfolio s) = Some (i, e) →
  ∃ e', first_lot stock (portfolio (run_all actions s)) = Some (i, e')
        ∧ (Quantity e' ≤ Quantity e)%Z
        ∧ ∀ quantity_to_sell sell_price,
            (Quantity e < quantity_to_sell)%Z →
            sell stock quantity_to_sell (Some sell_price) (run_all actions s)
              = (run_all actions s, [InsufficientQuantity]).
Proof.
  intros Hall Hfirst.
  destruct (first_lot_extends _ _ stock i e (run_all_extends actions s Hall) Hfirst)
    as (e' & Hfirst' & (_ & _ & _ & Hq)).
  exists e'. split; [exact Hfirst'|]. split; [exact Hq|].
  intros q sp Hlt. rewrite sell_cases, Hfirst'.
  assert ((Quantity e' >=? q)%Z = false) as -> by lia. reflexivity.
Qed.

(** An instance: the first lot of [X] is sold out; twenty more shares are
    bought, and a sale of one share fails. *)
Lemma first_lot_keeps_gating_sales_witness :
  let clicks := [ Buy "x" false (Some 90%Q) 20 "2024-02-01" ] in
  portfolio (run_all clicks (session [lot "X" 0 100]))
    = [ lot "X" 0 100;
        {| Stock := "X"; Quantity := 20; Buy_Price := Some 90%Q;
           Buy_Date := "2024-02-01" |} ]
  ∧ sell "X" 1 (Some 120%Q) (run_all clicks (session [lot "X" 0 100]))
    = (run_all clicks (session [lot "X" 0 100]), [InsufficientQuantity]).
Proof.
  cbv zeta. split; [reflexivity|].
  destruct (first_lot_keeps_gating_sales
              [ Buy "x" false (Some 90%Q) 20 "2024-02-01" ]
              (session [lot "X" 0 100]) "X" 0 (lot "X" 0 100))
    as (e' & _ & _ & Hfail).
  - repeat constructor.
  - reflexivity.
  - apply Hfail. cbn. lia.
Defined.

(** ** What a purchase and a sale do to the holdings *)

Lemma total_quantity_app (l k : list entry) :
  total_quantity (l ++ k) = (total_quantity l + total_quantity k)%Z.
Proof. unfold total_quantity. rewrite fmap_app. apply sum_Z_app. Qed.

Lemma total_quantity_cons (e : entry) (l : list entry) :
  total_quantity (e :: l) = (Quantity e + total_quantity l)%Z.
Proof. unfold total_quantity. cbn [fmap list_fmap]. apply sum_Z_cons. Qed.

Lemma stock_entries_app (l k : list entry) (stock : string) :
  stock_entries (l ++ k) stock = (stock_entries l stock ++ stock_entries k stock)%list.
Proof. unfold stock_entries. apply filter_app. Qed.

(** X7. A Buy click that goes through (a symbol typed in, a history and a
    price fetched) appends one new lot at the end of the ledger and touches
    no other: the symbol, in upper case, has one lot more and holds the
    bought quantity more, no lot of it is merged with the new one, and the
    lots of every other symbol are as before. *)
Theorem buy_appends_one_lot
    (text : string) (price : Q) (quantity_to_buy : Z) (today : string) (s : state) :
  upper text ≠ "" →
  let bought := {| Stock := upper text; Quantity := quantity_to_buy;
                   Buy_Price := Some price; Buy_Date := today |} in
  let r := buy_click text false (Some price) quantity_to_buy today s in
  portfolio r.1 = (portfolio s ++ [bought])%list
  ∧ r.2 = [ file_written (json_dump (portfolio s ++ [bought]));
            st_success (bought_text quantity_to_buy (upper text) price) ]
  ∧ stock_entries (portfolio r.1) (upper text)
    = (stock_entries (portfolio s) (upper text) ++ [bought])%list
  ∧ total_quantity (stock_entries (portfolio r.1) (upper text))
    = (total_quantity (stock_entries (portfolio s) (upper text)) + quantity_to_buy)%Z
  ∧ ∀ other, other ≠ upper text →
      stock_entries (portfolio r.1) other = stock_entries (portfolio s) other.
Proof.
  intros Hsym. cbv zeta. unfold buy_click.
  destruct (decide (upper text = "")); [contradiction|].
  cbn [buy fst snd portfolio].
  split; [reflexivity|]. split; [reflexivity|].
  rewrite stock_entries_app.
  assert (∀ stock,
            stock_entries [ {| Stock := upper text; Quantity := quantity_to_buy;
                               Buy_Price := Some price; Buy_Date := today |} ] stock
            = if decide (upper text = stock)
              then [ {| Stock := upper text; Quantity := quantity_to_buy;
                        Buy_Price := Some price; Buy_Date := today |} ]
              else []) as Hone.
  { intros stock. unfold stock_entries. rewrite filter_cons. cbn [Stock].
    destruct (decide (upper text = stock)); reflexivity. }
  split; [|split].
  - rewrite Hone. destruct (decide (upper text = upper text)); [reflexivity|contradiction].
  - rewrite total_quantity_app, Hone.
    destruct (decide (upper text = upper text)); [|contradiction].
    rewrite total_quantity_cons. unfold total_quantity, sum_Z. cbn. lia.
  - intros other Hother. rewrite stock_entries_app, Hone.
    destruct (decide (upper text = other)); [congruence|]. apply app_nil_r.
Qed.

(** An instance: a second purchase of [INFY.NS]. *)
Lemma buy_appends_one_lot_witness :
  stock_entries
    (portfolio (buy_click "infy.ns" false (Some 1500%Q) 3 "2024-03-01"
                  (session [lot "INFY.NS" 2 1400; lot "TCS.NS" 1 3500])).1)
    "INFY.NS"
  = [ lot "INFY.NS" 2 1400;
      {| Stock := "INFY.NS"; Quantity := 3; Buy_Price := Some 1500%Q;
         Buy_Date := "2024-03-01" |} ].
Proof.
  destruct (buy_appends_one_lot "infy.ns" 1500 3 "2024-03-01"
              (session [lot "INFY.NS" 2 1400; lot "TCS.NS" 1 3500]))
    as (_ & _ & Hlots & _).
  - discriminate.
  - exact Hlots.
Defined.

(** The groups of a ledger in which one lot is replaced by a lot of the
    same symbol. *)
Lemma stock_entries_insert (ledger : list entry) (i : nat) (e e' : entry) (stock : string) :
  ledger !! i = Some e → Stock e' = Stock e →
  stock_entries ledger stock
    = (stock_entries (take i ledger) stock
       ++ (if decide (Stock e = stock) then [e] else [])
       ++ stock_entries (drop (S i) ledger) stock)%list
  ∧ stock_entries (<[i := e']> ledger) stock
    = (stock_entries (take i ledger) stock
       ++ (if decide (Stock e = stock) then [e'] else [])
       ++ stock_entries (drop (S i) ledger) stock)%list.
Proof.
  intros Hi Hs. split.
  - rewrite <- (take_drop_middle ledger i e Hi) at 1.
    rewrite stock_entries_app. f_equal.
    unfold stock_entries. rewrite filter_cons.
    destruct (decide (Stock e = stock)); reflexivity.
  - rewrite insert_take_drop by (eapply lookup_lt_Some, Hi).
    rewrite stock_entries_app. f_equal.
    unfold stock_entries. rewrite filter_cons, Hs.
    destruct (decide (Stock e = stock)); reflexivity.
Qed.

(** X8. A sale that is settled takes the sold quantity off the holding of
    the symbol and off nothing else: the symbol keeps all its lots (also a
    lot sold down to zero), its total quantity is lower by exactly the
    quantity sold, and the lots of every other symbol are as before. *)
Theorem sale_lowers_the_holding
    (s : state) (stock_to_sell : string) (quantity_to_sell : Z) (sell_price : Q)
    (i : nat) (e : entry) (buy_price : Q) :
  first_lot stock_to_sell (portfolio s) = Some (i, e) →
  (quantity_to_sell ≤ Quantity e)%Z →
  Buy_Price e = Some buy_price →
  let ledger' := portfolio (sell stock_to_sell quantity_to_sell (Some sell_price) s).1 in
  total_quantity (stock_entries ledger' stock_to_sell)
    = (total_quantity (stock_entries (portfolio s) stock_to_sell) - quantity_to_sell)%Z
  ∧ length (stock_entries ledger' stock_to_sell)
    = length (stock_entries (portfolio s) stock_to_sell)
  ∧ (∀ other, other ≠ stock_to_sell →
       stock_entries ledger' other = stock_entries (portfolio s) other)
  ∧ total_quantity ledger' = (total_quantity (portfolio s) - quantity_to_sell)%Z.
Proof.
  intros Hfirst Hq Hbp. cbv zeta. rewrite sell_cases, Hfirst.
  assert ((Quantity e >=? quantity_to_sell)%Z = true) as -> by lia.
  rewrite Hbp. cbn [fst portfolio].
  apply first_lot_Some in Hfirst as (Hi & Hs & _).
  assert (Stock (decrement quantity_to_sell e) = Stock e) as Hsame by reflexivity.
  split; [|split; [|split]].
  - destruct (stock_entries_insert _ i e _ stock_to_sell Hi Hsame) as [-> ->].
    destruct (decide (Stock e = stock_to_sell)); [|contradiction].
    rewrite !total_quantity_app, !total_quantity_cons. cbn [Quantity decrement]. lia.
  - destruct (stock_entries_insert _ i e _ stock_to_sell Hi Hsame) as [-> ->].
    destruct (decide (Stock e = stock_to_sell)); [|contradiction].
    rewrite !length_app. reflexivity.
  - intros other Hother.
    destruct (stock_entries_insert _ i e _ other Hi Hsame) as [-> ->].
    destruct (decide (Stock e = other)); [congruence|reflexivity].
  - rewrite insert_take_drop by (eapply lookup_lt_Some, Hi).
    rewrite <- (take_drop_middle (portfolio s) i e Hi) at 3.
    rewrite !total_quantity_app, !total_quantity_cons. cbn [Quantity decrement]. lia.
Qed.

(** An instance: four of the ten shares of the first lot of [X] are sold. *)
Lemma sale_lowers_the_holding_witness :
  let ledger := [lot "Y" 5 50; lot "X" 10 100; lot "X" 20 90] in
  total_quantity
    (stock_entries (portfolio (sell "X" 4 (Some 120%Q) (session ledger)).1) "X")
  = (total_quantity (stock_entries ledger "X") - 4)%Z.
Proof.
  cbv zeta.
  destruct (sale_lowers_the_holding
              (session [lot "Y" 5 50; lot "X" 10 100; lot "X" 20 90])
              "X" 4 120 1 (lot "X" 10 100) 100 eq_refl ltac:(cbn; lia) eq_refl)
    as (Htotal & _).
  exact Htotal.
Defined.

(** X9. Two sales of a symbol, one after the other, leave the ledger and the
    file as one sale of the two quantities together does, when the first lot
    of the symbol covers both (quantities as the number box allows them):
    the second sale is settled against the same lot as the first. *)
Theorem two_sales_as_one
    (s : state) (stock_to_sell : string) (q1 q2 : Z) (p1 p2 p : Q)
    (i : nat) (e : entry) (buy_price : Q) :
  first_lot stock_to_sell (portfolio s) = Some (i, e) →
  Buy_Price e = Some buy_price →
  (1 ≤ q1)%Z → (1 ≤ q2)%Z → (q1 + q2 ≤ Quantity e)%Z →
  (sell stock_to_sell q2 (Some p2) (sell stock_to_sell q1 (Some p1) s).1).1
  = (sell stock_to_sell (q1 + q2) (Some p) s).1.
Proof.
  intros Hfirst Hbp H1 H2 Hsum.
  rewrite (sell_cases stock_to_sell q1), (sell_cases stock_to_sell (q1 + q2)), Hfirst.
  assert ((Quantity e >=? q1)%Z = true) as -> by lia.
  assert ((Quantity e >=? q1 + q2)%Z = true) as -> by lia.
  rewrite Hbp. cbn [fst].
  apply first_lot_Some in Hfirst as Hfirst'. destruct Hfirst' as (Hi & Hs & Hbefore).
  assert (first_lot stock_to_sell (<[i := decrement q1 e]> (portfolio s))
          = Some (i, decrement q1 e)) as Hfirst1.
  { unfold first_lot. apply list_find_Some.
    split; [apply list_lookup_insert_eq; eapply lookup_lt_Some, Hi|].
    split; [exact Hs|].
    intros j y Hj Hlt. rewrite list_lookup_insert_ne in Hj by lia.
    eapply Hbefore; eassumption. }
  rewrite sell_cases. cbn [portfolio]. rewrite Hfirst1.
  cbn [Quantity decrement Buy_Price].
  assert ((Quantity e - q1 >=? q2)%Z = true) as -> by lia.
  rewrite Hbp. cbn [fst]. rewrite list_insert_insert_eq.
  assert (decrement q2 (decrement q1 e) = decrement (q1 + q2) e) as ->.
  { unfold decrement. cbn. f_equal. lia. }
  reflexivity.
Qed.

(** An instance: four shares, then three, against seven at once. *)
Lemma two_sales_as_one_witness :
  (sell "X" 3 (Some 125%Q) (sell "X" 4 (Some 120%Q) (session [lot "X" 10 100])).1).1
  = (sell "X" 7 (Some 130%Q) (session [lot "X" 10 100])).1.
Proof.
  apply (two_sales_as_one (session [lot "X" 10 100]) "X" 4 3 120 125 130
           0 (lot "X" 10 100) 100); first [reflexivity | cbn; lia].
Defined.

(** ** More on [calculate_totals] *)

Lemma iterates_Permutation (ledger : list entry) (order1 order2 : list string) :
  iterates ledger order1 → iterates ledger order2 → order1 ≡ₚ order2.
Proof.
  intros [Hnd1 H1] [Hnd2 H2]. apply NoDup_Permutation; [assumption..|].
  intros x. rewrite H1, H2. reflexivity.
Qed.

(** X10. The order in which the set of symbols is visited does not matter
    to the rows [calculate_totals] returns on a ledger whose lots all carry
    a buy price: two visits give the same rows, up to their order.  (A row
    is computed from the lots of its symbol alone, in ledger order.) *)
Theorem rows_do_not_depend_on_the_order
    (get_latest_price : string → option Q) (ledger : list entry)
    (order1 order2 : list string) :
  iterates ledger order1 →
  iterates ledger order2 →
  priced ledger →
  ∃ rows1 ti1 tpl1 rows2 ti2 tpl2,
    calculate_totals_in get_latest_price order1 ledger = Some (rows1, ti1, tpl1)
    ∧ calculate_totals_in get_latest_price order2 ledger = Some (rows2, ti2, tpl2)
    ∧ rows1 ≡ₚ rows2.
Proof.
  intros H1 H2 Hp.
  pose proof (iterates_Permutation ledger order1 order2 H1 H2) as Hperm.
  eexists _, _, _, _, _, _.
  split; [apply calculate_totals_in_priced, Hp|].
  split; [apply calculate_totals_in_priced, Hp|].
  apply fmap_Permutation, Hperm.
Qed.

(** An instance: the two orders of [{X, Y}]. *)
Lemma rows_do_not_depend_on_the_order_witness :
  let ledger := [lot "X" 10 100; lot "Y" 5 (1 # 8); lot "X" 1 (51 # 2)] in
  ∃ rows1 ti1 tpl1 rows2 ti2 tpl2,
    calculate_totals_in (λ _, Some 120%Q) ["X"; "Y"] ledger = Some (rows1, ti1, tpl1)
    ∧ calculate_totals_in (λ _, Some 120%Q) ["Y"; "X"] ledger = Some (rows2, ti2, tpl2)
    ∧ rows1 ≡ₚ rows2.
Proof.
  cbv zeta.
  apply (rows_do_not_depend_on_the_order (λ _, Some 120%Q)
           [lot "X" 10 100; lot "Y" 5 (1 # 8); lot "X" 1 (51 # 2)]
           ["X"; "Y"] ["Y"; "X"]).
  - iterates_by_computation.
  - iterates_by_computation.
  - repeat constructor; eexists; reflexivity.
Defined.

Lemma no_price_no_profit_loss oracle (ledger : list entry) (order : list string) (acc : Q) :
  (∀ stock, stock ∈ order → oracle stock = None) →
  fold_left (λ acc f, acc + fig_profit_loss f)%Q (figures_of oracle ledger <$> order) acc
  = fold_left (λ acc _, acc + 0)%Q order acc.
Proof.
  revert acc. induction order as [|s order IH]; intros acc Hnone; [reflexivity|].
  cbn [fmap list_fmap fold_left]. rewrite IH.
  - unfold figures_of. rewrite (Hnone s) by apply list_elem_of_here. reflexivity.
  - intros stock Hin. apply Hnone, list_elem_of_further, Hin.
Qed.

Lemma fold_left_add_zero (order : list string) :
  fold_left (λ acc _, acc + 0)%Q order 0%Q = 0%Q.
Proof. induction order as [|s order IH]; [reflexivity|]. exact IH. Qed.

(** X11. On a ledger whose lots all carry a buy price, a symbol whose latest
    price is unavailable is valued at cost: it has its one row, its current
    value is the very number that is its total invested, so that the row
    shows the two alike, and its profit or loss is 0, shown as the rupee
    sign and 0.00.  When no symbol at all has a price, the total profit or
    loss returned is 0. *)
Theorem symbol_without_price_is_valued_at_cost
    (get_latest_price : string → option Q) (ledger : list entry) (order : list string) :
  iterates ledger order →
  priced ledger →
  ∃ rows total_invested total_profit_loss,
    calculate_totals_in get_latest_price order ledger
      = Some (rows, total_invested, total_profit_loss)
    ∧ (∀ stock, stock ∈ Stock <$> ledger → get_latest_price stock = None →
         ∃ f, stock_figures get_latest_price ledger stock = Some f
           ∧ filter (λ r, row_Stock r = stock) rows = [stock_row stock f]
           ∧ fig_current_value f = fig_invested f
           ∧ fig_profit_loss f = 0%Q
           ∧ row_Current_Value (stock_row stock f) = row_Total_Invested (stock_row stock f)
           ∧ row_Profit_Loss (stock_row stock f) = rupee +:+ "0.00")
    ∧ ((∀ stock, stock ∈ order → get_latest_price stock = None) →
       total_profit_loss = 0%Q).
Proof.
  intros [Hnodup Hall] Hp.
  eexists _, _, _. split; [apply calculate_totals_in_priced, Hp|].
  split.
  - intros stock Hin Hnone.
    exists (figures_of get_latest_price ledger stock).
    split; [apply stock_figures_priced, Hp|].
    split; [apply rows_of_symbol; [exact Hnodup | apply Hall, Hin]|].
    unfold stock_row, figures_of. rewrite Hnone. cbn. repeat split.
  - intros Hnone. rewrite no_price_no_profit_loss by assumption.
    apply fold_left_add_zero.
Qed.

(** An instance: [Y] has no price and 500 invested. *)
Lemma symbol_without_price_is_valued_at_cost_witness :
  let oracle := λ s : string, if decide (s = "X") then Some 120%Q else None in
  let ledger := [lot "X" 10 100; lot "Y" 5 100] in
  ∃ rows total_invested total_profit_loss,
    calculate_totals_in oracle ["Y"; "X"] ledger
      = Some (rows, total_invested, total_profit_loss)
    ∧ filter (λ r, row_Stock r = "Y") rows
      = [ {| row_Stock := "Y"; row_Quantity := 5;
             row_Total_Invested := rupee +:+ "500.00";
             row_Current_Value := rupee +:+ "500.00";
             row_Profit_Loss := rupee +:+ "0.00" |} ].
Proof.
  cbv zeta.
  destruct (symbol_without_price_is_valued_at_cost
              (λ s : string, if decide (s = "X") then Some 120%Q else None)
              [lot "X" 10 100; lot "Y" 5 100] ["Y"; "X"])
    as (rows & ti & tpl & Hcalc & Hsym & _).
  - iterates_by_computation.
  - repeat constructor; eexists; reflexivity.
  - exists rows, ti, tpl. split; [exact Hcalc|].
    destruct (Hsym "Y") as (f & Hf & Hrows & _).
    + cbn. apply list_elem_of_further, list_elem_of_here.
    + reflexivity.
    + rewrite Hrows. vm_compute in Hf. injection Hf as <-. vm_compute. reflexivity.
Defined.

(** X12. [calculate_totals] raises (a [TypeError], on multiplying [None])
    exactly when some lot of the ledger has no buy price; otherwise it
    returns. *)
Theorem calculate_totals_raises_iff_unpriced
    (get_latest_price : string → option Q) (ledger : list entry) (order : list string) :
  iterates ledger order →
  (calculate_totals_in get_latest_price order ledger = None
   ↔ ∃ e, e ∈ ledger ∧ Buy_Price e = None).
Proof.
  intros Hit. split.
  - intros Hnone.
    destruct (decide (priced ledger)) as [Hp|Hp].
    + rewrite calculate_totals_in_priced in Hnone by assumption. discriminate.
    + apply not_Forall_Exists in Hp; [|intros e; apply _].
      apply Exists_exists in Hp as (e & He & Hno). exists e. split; [exact He|].
      apply eq_None_not_Some. exact Hno.
  - intros (e & He & Hno). eapply calculate_totals_in_raises; eassumption.
Qed.

(** An instance: the ledger left by a Buy without a price. *)
Lemma calculate_totals_raises_iff_unpriced_witness :
  calculate_totals_in (λ _, Some 120%Q) ["X"]
    [ lot "X" 10 100;
      {| Stock := "X"; Quantity := 1; Buy_Price := None; Buy_Date := "2024-01-02" |} ]
  = None.
Proof.
  apply (calculate_totals_raises_iff_unpriced (λ _, Some 120%Q)
           [ lot "X" 10 100;
             {| Stock := "X"; Quantity := 1; Buy_Price := None;
                Buy_Date := "2024-01-02" |} ] ["X"]).
  - iterates_by_computation.
  - eexists. split; [apply list_elem_of_further, list_elem_of_here | reflexivity].
Defined.

(** X13. A symbol all of whose lots are sold out is still reported, on a
    ledger whose lots carry their buy prices: [calculate_totals] gives it
    its one row, with quantity 0 (sold-out lots stay in the ledger, and the
    set of symbols is taken over all of them). *)
Theorem sold_out_symbol_keeps_its_row
    (get_latest_price : string → option Q) (ledger : list entry) (order : list string)
    (stock : string) :
  iterates ledger order →
  priced ledger →
  stock ∈ Stock <$> ledger →
  (∀ e, e ∈ ledger → Stock e = stock → Quantity e = 0%Z) →
  ∃ rows total_invested total_profit_loss r,
    calculate_totals_in get_latest_price order ledger
      = Some (rows, total_invested, total_profit_loss)
    ∧ filter (λ r, row_Stock r = stock) rows = [r]
    ∧ row_Quantity r = 0%Z.
Proof.
  intros [Hnodup Hall] Hp Hin Hzero.
  eexists _, _, _, _. split; [apply calculate_totals_in_priced, Hp|].
  split; [apply rows_of_symbol; [exact Hnodup | apply Hall, Hin]|].
  cbn [row_Quantity stock_row]. rewrite fig_quantity_figures_of.
  assert (Forall (λ e, Quantity e = 0%Z) (stock_entries ledger stock)) as Hgroup.
  { apply Forall_forall. intros e He. apply list_elem_of_filter in He as [Hs He]. auto. }
  unfold total_quantity. rewrite sum_Z_foldr.
  induction Hgroup as [|e l He _ IH]; [reflexivity|].
  cbn [fmap list_fmap foldr]. cbn [fmap list_fmap] in IH. rewrite IH, He. reflexivity.
Qed.

(** An instance: the ledger after the only lot of [X] is sold whole. *)
Lemma sold_out_symbol_keeps_its_row_witness :
  let ledger := portfolio (sell "X" 10 (Some 120%Q)
                             (session [lot "X" 10 100; lot "Y" 5 50])).1 in
  ledger = [lot "X" 0 100; lot "Y" 5 50]
  ∧ ∃ rows total_invested total_profit_loss r,
      calculate_totals_in (λ _, Some 120%Q) ["Y"; "X"] ledger
        = Some (rows, total_invested, total_profit_loss)
      ∧ filter (λ r, row_Stock r = "X") rows = [r]
      ∧ row_Quantity r = 0%Z.
Proof.
  cbv zeta. split; [reflexivity|].
  apply (sold_out_symbol_keeps_its_row (λ _, Some 120%Q)
           [lot "X" 0 100; lot "Y" 5 50] ["Y"; "X"] "X").
  - iterates_by_computation.
  - repeat constructor; eexists; reflexivity.
  - apply list_elem_of_here.
  - intros e He Hs.
    repeat (apply elem_of_cons in He as [->|He]; [first [reflexivity | discriminate Hs]|]).
    apply elem_of_nil in He. destruct He.
Defined.

(** ** Symbols *)

(** X14. Every lot of a ledger built by clicks from the empty ledger has its
    symbol in upper case (on the ASCII letters): the text box is upper-cased
    before Buy stores it, and Sell and Clear store no symbol. *)
Theorem clicks_store_upper_case_symbols (actions : list action) :
  Forall (λ e, upper (Stock e) = Stock e) (portfolio (run_all actions (session []))).
Proof. apply (run_all_normalized actions (session [])). constructor. Qed.

Lemma unique_NoDup (l : list string) : NoDup l → unique l = l.
Proof.
  induction 1 as [|x l Hx _ IH]; [reflexivity|].
  cbn [unique]. rewrite IH. f_equal.
  clear IH. induction l as [|y l IH]; [reflexivity|].
  apply not_elem_of_cons in Hx as [Hne Hx].
  rewrite filter_cons. destruct (decide (y ≠ x)) as [_|Heq];
    [|exfalso; apply Heq; congruence].
  rewrite IH by assumption. reflexivity.
Qed.

(** X15. The select box of the Sell section offers exactly the symbols of
    the ledger, each once, in the order of the rows; and a Sell click on an
    offered symbol, with the sell price fetched and a ledger whose lots carry
    their buy prices, is always answered: either the sale is settled and
    saved, or [InsufficientQuantity] is shown. *)
Theorem offered_symbols_are_held
    (get_latest_price : string → option Q) (s : state) (order : list string)
    (rows : list stock_total) (total_invested total_profit_loss : Q) :
  iterates (portfolio s) order →
  priced (portfolio s) →
  calculate_totals_in get_latest_price order (portfolio s)
    = Some (rows, total_invested, total_profit_loss) →
  stocks_to_sell rows = order
  ∧ (∀ stock, stock ∈ stocks_to_sell rows ↔ ∃ e, e ∈ portfolio s ∧ Stock e = stock)
  ∧ ∀ stock_to_sell quantity_to_sell sell_price,
      stock_to_sell ∈ stocks_to_sell rows →
      (sell stock_to_sell quantity_to_sell (Some sell_price) s).2 = [InsufficientQuantity]
      ∨ ∃ text,
          (sell stock_to_sell quantity_to_sell (Some sell_price) s).2
          = [ file_written
                (json_dump (portfolio (sell stock_to_sell quantity_to_sell
                                         (Some sell_price) s).1));
              st_success text ].
Proof.
  intros [Hnodup Hall] Hp Hcalc.
  rewrite calculate_totals_in_priced in Hcalc by assumption.
  injection Hcalc as <- _ _.
  assert (stocks_to_sell ((λ stock, stock_row stock
                             (figures_of get_latest_price (portfolio s) stock)) <$> order)
          = order) as Hoffered.
  { unfold stocks_to_sell. rewrite row_Stock_rows. apply unique_NoDup, Hnodup. }
  rewrite Hoffered.
  assert (∀ stock, stock ∈ order ↔ ∃ e, e ∈ portfolio s ∧ Stock e = stock) as Hheld.
  { intros stock. rewrite Hall, list_elem_of_fmap. split.
    - intros (e & -> & He). eauto.
    - intros (e & He & <-). eauto. }
  split; [reflexivity|]. split; [exact Hheld|].
  intros stock q sp Hin. rewrite sell_cases.
  destruct (first_lot stock (portfolio s)) as [[i e]|] eqn:Hfirst.
  - destruct (Quantity e >=? q)%Z; [|left; reflexivity].
    apply first_lot_Some in Hfirst as (Hi & _ & _).
    unfold priced in Hp. rewrite Forall_lookup in Hp.
    destruct (Hp i e Hi) as [bp Hbp]. rewrite Hbp.
    right. eexists. reflexivity.
  - exfalso. apply Hheld in Hin as (e & He & Hs).
    rewrite first_lot_None in Hfirst. exact (Hfirst e He Hs).
Qed.

(** An instance: a ledger of [X] and [Y]. *)
Lemma offered_symbols_are_held_witness :
  ∃ rows total_invested total_profit_loss,
    calculate_totals_in (λ _, Some 120%Q) ["Y"; "X"] [lot "X" 10 100; lot "Y" 5 50]
      = Some (rows, total_invested, total_profit_loss)
    ∧ stocks_to_sell rows = ["Y"; "X"].
Proof.
  destruct (calculate_totals_in (λ _, Some 120%Q) ["Y"; "X"] [lot "X" 10 100; lot "Y" 5 50])
    as [[[rows ti] tpl]|] eqn:Hcalc; [|vm_compute in Hcalc; discriminate Hcalc].
  exists rows, ti, tpl. split; [reflexivity|].
  apply (offered_symbols_are_held (λ _, Some 120%Q)
           (session [lot "X" 10 100; lot "Y" 5 50]) ["Y"; "X"] rows ti tpl).
  - iterates_by_computation.
  - repeat constructor; eexists; reflexivity.
  - exact Hcalc.
Defined.

(** ** What a purchase does to the invested amount *)

Lemma mapM_snoc {A B} (f : A → option B) (l : list A) (x : A) (ys : list B) (y : B) :
  mapM f l = Some ys → f x = Some y → mapM f (l ++ [x]) = Some (ys ++ [y])%list.
Proof.
  intros Hl Hx. apply mapM_Some. apply mapM_Some in Hl.
  apply Forall2_app; [exact Hl|]. constructor; [exact Hx|constructor].
Qed.

(** X16. A Buy click that goes through adds the price times the quantity
    bought to the total invested of the symbol, as the last term of its sum:
    the symbol's total invested after the click is its total invested
    before, plus [price * quantity]. *)
Theorem buy_adds_its_cost_to_the_symbol
    (text : string) (price : Q) (quantity_to_buy : Z) (today : string) (s : state)
    (before : Q) :
  upper text ≠ "" →
  total_invested_stock (stock_entries (portfolio s) (upper text)) = Some before →
  total_invested_stock
    (stock_entries (portfolio (buy_click text false (Some price) quantity_to_buy today s).1)
       (upper text))
  = Some (before + price * inject_Z quantity_to_buy)%Q.
Proof.
  intros Hsym Hbefore. unfold buy_click.
  destruct (decide (upper text = "")); [contradiction|].
  cbn [buy fst portfolio]. rewrite stock_entries_app.
  unfold stock_entries at 2. rewrite filter_cons. cbn [Stock].
  destruct (decide (upper text = upper text)); [|contradiction].
  rewrite filter_nil.
  unfold total_invested_stock in *.
  destruct (mapM invested (stock_entries (portfolio s) (upper text))) as [ys|] eqn:Hys;
    [|discriminate].
  injection Hbefore as <-.
  erewrite mapM_snoc; [|exact Hys|reflexivity].
  cbn [fmap option_fmap option_map]. f_equal.
  unfold sum_Q. apply fold_left_app.
Qed.

(** An instance: three shares at 1500 on top of 2800 invested. *)
Lemma buy_adds_its_cost_to_the_symbol_witness :
  total_invested_stock
    (stock_entries
       (portfolio (buy_click "infy.ns" false (Some 1500%Q) 3 "2024-03-01"
                     (session [lot "INFY.NS" 2 1400; lot "TCS.NS" 1 3500])).1)
       "INFY.NS")
  = Some (0 + 1400 * inject_Z 2 + 1500 * inject_Z 3)%Q.
Proof.
  apply (buy_adds_its_cost_to_the_symbol "infy.ns" 1500 3 "2024-03-01"
           (session [lot "INFY.NS" 2 1400; lot "TCS.NS" 1 3500])
           (0 + 1400 * inject_Z 2)%Q).
  - discriminate.
  - reflexivity.
Defined.
